(** * Student-Server: the student record service

    A shallow embedding of the three source files

      - [config/dbInit.js]   (the schema initializer, [createStudentTable]),
      - [index.js]           (the entry point, [initialize]),
      - [routes/students.js] (the eight request handlers),

    together with a model of the collaborator they all talk to, the
    connection pool of [config/db] and the relational engine behind it.

    Every handler is an [async] function that awaits one [pool.query],
    inspects [result.rows] and answers through [res.status(..).json(..)];
    a rejected query is caught and answered with status 500.  Handlers
    are embedded in a state-and-exception monad over a [world] made of
    the storage, the state of the link to it and the trace of observable
    events (statements issued, responses sent, console lines, the
    [listen] call). *)

From Stdlib Require Import ZArith Lia DecimalString DecimalZ Sorted.
From stdpp Require Import base option strings gmap list.

Local Open Scope Z_scope.
Local Open Scope string_scope.
Local Open Scope list_scope.

(** ** JavaScript values that reach [pool.query] *)

Module Js.

(** Path parameters are always strings; the fields destructured from a
    JSON body are scalars, or [undefined] when the field is absent.
    Numbers are the integral ones. *)
Inductive jsval : Type :=
| JUndefined
| JNull
| JBool (b : bool)
| JNum (n : Z)
| JStr (s : string).

#[global] Instance jsval_eq_dec : EqDecision jsval.
Proof. solve_decision. Defined.

(** [Number.prototype.toString] on an integral number: decimal digits,
    a leading minus sign for negatives, no leading zeros. *)
Definition toString (n : Z) : string :=
  NilZero.string_of_int (Z.to_int n).

(** [obj.field] / destructuring of a field: [undefined] when absent. *)
Definition field (o : gmap string jsval) (k : string) : jsval :=
  default JUndefined (o !! k).

End Js.
Export Js.

(** ** The storage *)

Module Pg.

(** One row of the [students] table, with the columns of the
    [CREATE TABLE] statement of [config/dbInit.js]. *)
Record student : Type := Student {
  id : Z;
  name : string;
  age : Z;
  course : string;
  gender : string
}.

#[global] Instance student_eq_dec : EqDecision student.
Proof. solve_decision. Defined.

Inductive column : Type := Cid | Cname | Cage | Ccourse | Cgender.

(** The widths of the three [VARCHAR(n)] columns, as the table
    definition gives them. *)
Record ddl : Type := Ddl {
  name_width : nat;
  course_width : nat;
  gender_width : nat
}.

(** The relation: its definition, its rows and the next value of the
    sequence behind the [SERIAL] column. *)
Record table : Type := Table {
  widths : ddl;
  rows : list student;
  seq : Z
}.

(** The statements the service sends, by shape; [$1], [$2], ... are
    the positional parameters passed alongside. *)
Inductive sql : Type :=
| CREATE_TABLE_IF_NOT_EXISTS (d : ddl)
    (* CREATE TABLE IF NOT EXISTS students (id SERIAL PRIMARY KEY, ...) *)
| INSERT_RETURNING
    (* INSERT INTO students (name, age, course, gender)
       VALUES ($1, $2, $3, $4) RETURNING * *)
| SELECT_ALL
    (* SELECT * FROM students *)
| SELECT_WHERE (c : column)
    (* SELECT * FROM students WHERE c = $1 *)
| UPDATE_WHERE_ID_RETURNING
    (* UPDATE students SET name = $1, age = $2, course = $3, gender = $4
       WHERE id = $5 RETURNING * *)
| DELETE_WHERE_ID_RETURNING.
    (* DELETE FROM students WHERE id = $1 RETURNING * *)

(** What a rejected statement is rejected with. *)
Inductive pg_error : Type :=
| ConnectionFailure (detail : string)
| UndefinedTable
| WrongParameterCount
| InvalidTextRepresentation (input : string)
| NumericValueOutOfRange (input : string)
| NotNullViolation (c : column)
| StringDataRightTruncation (c : column)
| UniqueViolation (key : Z)
| SequenceExhausted.

Definition int4_min : Z := - 2 ^ 31.
Definition int4_max : Z := 2 ^ 31 - 1.

(** Modelled from the spec: the parameter preparation of the pool of
    [config/db], which is not among the sources.  [null] and
    [undefined] become SQL [NULL]; every other scalar travels as its
    text. *)
Definition prepareValue (v : jsval) : option string :=
  match v with
  | JUndefined | JNull => None
  | JBool true => Some "true"
  | JBool false => Some "false"
  | JNum n => Some (Js.toString n)
  | JStr s => Some s
  end.

(** Modelled from the spec: the engine's input conversion for an
    [INTEGER] value, "malformed input rejected by storage".  The text
    must be a decimal literal with an optional minus sign, and its value
    must lie in the 32-bit range. *)
Definition int4in (s : string) : pg_error + Z :=
  match NilZero.int_of_string s with
  | None => inl (InvalidTextRepresentation s)
  | Some d =>
      let z := Z.of_int d in
      if bool_decide (int4_min <= z <= int4_max) then inr z
      else inl (NumericValueOutOfRange s)
  end.

(** A parameter bound at an [INTEGER] position; [NULL] stays [NULL]. *)
Definition bind_int4 (v : jsval) : pg_error + option Z :=
  match prepareValue v with
  | None => inr None
  | Some s =>
      match int4in s with
      | inl e => inl e
      | inr z => inr (Some z)
      end
  end.

(** A value assigned to a [VARCHAR(w) NOT NULL] column; the length is
    counted in bytes, which are the characters of ASCII text. *)
Definition varchar_not_null (c : column) (w : nat) (v : option string)
  : pg_error + string :=
  match v with
  | None => inl (NotNullViolation c)
  | Some s =>
      if bool_decide (String.length s <= w)%nat then inr s
      else inl (StringDataRightTruncation c)
  end.

(** A value assigned to the [INTEGER NOT NULL] column. *)
Definition int4_not_null (c : column) (v : option Z) : pg_error + Z :=
  match v with
  | None => inl (NotNullViolation c)
  | Some z => inr z
  end.

(** The four assigned columns of a row, checked against the table
    definition: what both [INSERT] and [UPDATE .. SET] store. *)
Definition checked_row (d : ddl) (i : Z)
    (vname : option string) (vage : option Z)
    (vcourse vgender : option string) : pg_error + student :=
  match varchar_not_null Cname (name_width d) vname with
  | inl e => inl e
  | inr n =>
    match int4_not_null Cage vage with
    | inl e => inl e
    | inr a =>
      match varchar_not_null Ccourse (course_width d) vcourse with
      | inl e => inl e
      | inr c =>
        match varchar_not_null Cgender (gender_width d) vgender with
        | inl e => inl e
        | inr g => inr (Student i n a c g)
        end
      end
    end
  end.

(** The value a row holds in a column, by the column's type. *)
Definition text_column (c : column) (r : student) : option string :=
  match c with
  | Cname => Some (name r)
  | Ccourse => Some (course r)
  | Cgender => Some (gender r)
  | Cid | Cage => None
  end.

Definition int_column (c : column) (r : student) : option Z :=
  match c with
  | Cid => Some (id r)
  | Cage => Some (age r)
  | Cname | Ccourse | Cgender => None
  end.

Definition is_int_column (c : column) : bool :=
  match c with Cid | Cage => true | _ => false end.

(** [UPDATE .. SET ..] over the rows, in place: a row that matches is
    replaced by the checked new row, and also returned. *)
Fixpoint update_rows (d : ddl) (n : Z)
    (vname : option string) (vage : option Z)
    (vcourse vgender : option string) (l : list student)
  : pg_error + (list student * list student) :=
  match l with
  | [] => inr ([], [])
  | r :: l' =>
      if decide (id r = n) then
        match checked_row d (id r) vname vage vcourse vgender with
        | inl e => inl e
        | inr r' =>
            match update_rows d n vname vage vcourse vgender l' with
            | inl e => inl e
            | inr (ret, kept) => inr (r' :: ret, r' :: kept)
            end
        end
      else
        match update_rows d n vname vage vcourse vgender l' with
        | inl e => inl e
        | inr (ret, kept) => inr (ret, r :: kept)
        end
  end.

(** Modelled from the spec: the relational engine, which is not among
    the sources, on the six statement shapes, "durability, atomicity
    per statement, and uniqueness of the primary key".  The storage is
    [None] while the relation does not exist.  A statement either
    fails and leaves the storage as it was, or yields the rows it
    returns and the storage after it.  An [INSERT] takes its [id] from
    the sequence, which must hold a value the [INTEGER] column can
    store and the primary key does not have yet. *)
Definition exec (q : sql) (params : list jsval) (st : option table)
  : pg_error + (list student * option table) :=
  match q, params, st with
  | CREATE_TABLE_IF_NOT_EXISTS d, [], None => inr ([], Some (Table d [] 1))
  | CREATE_TABLE_IF_NOT_EXISTS d, [], Some t => inr ([], Some t)
  | CREATE_TABLE_IF_NOT_EXISTS _, _ :: _, _ => inl WrongParameterCount
  | _, _, None => inl UndefinedTable
  | INSERT_RETURNING, [p1; p2; p3; p4], Some t =>
      match bind_int4 p2 with
      | inl e => inl e
      | inr a =>
          if bool_decide (int4_min <= seq t <= int4_max) then
            match checked_row (widths t) (seq t) (prepareValue p1) a
                    (prepareValue p3) (prepareValue p4) with
            | inl e => inl e
            | inr r =>
                if decide (seq t ∈ id <$> rows t)
                then inl (UniqueViolation (seq t))
                else inr ([r], Some (Table (widths t) (rows t ++ [r])
                                           (seq t + 1)))
            end
          else inl SequenceExhausted
      end
  | SELECT_ALL, [], Some t => inr (rows t, Some t)
  | SELECT_WHERE c, [p1], Some t =>
      if is_int_column c then
        match bind_int4 p1 with
        | inl e => inl e
        | inr None => inr ([], Some t)
        | inr (Some n) => inr (filter (λ r, int_column c r = Some n) (rows t), Some t)
        end
      else
        match prepareValue p1 with
        | None => inr ([], Some t)
        | Some s => inr (filter (λ r, text_column c r = Some s) (rows t), Some t)
        end
  | UPDATE_WHERE_ID_RETURNING, [p1; p2; p3; p4; p5], Some t =>
      match bind_int4 p2, bind_int4 p5 with
      | inl e, _ => inl e
      | _, inl e => inl e
      | inr a, inr None => inr ([], Some t)
      | inr a, inr (Some n) =>
          match update_rows (widths t) n (prepareValue p1) a
                  (prepareValue p3) (prepareValue p4) (rows t) with
          | inl e => inl e
          | inr (ret, kept) => inr (ret, Some (Table (widths t) kept (seq t)))
          end
      end
  | DELETE_WHERE_ID_RETURNING, [p1], Some t =>
      match bind_int4 p1 with
      | inl e => inl e
      | inr None => inr ([], Some t)
      | inr (Some n) =>
          inr (filter (λ r, id r = n) (rows t),
               Some (Table (widths t)
                           (filter (λ r, id r ≠ n) (rows t))
                           (seq t)))
      end
  | _, _, Some _ => inl WrongParameterCount
  end.

End Pg.
Export Pg.

(** ** The world a handler runs in *)

Module Http.

(** The body handed to [res.json]. *)
Inductive body : Type :=
| BRecord (r : student)          (* a row object *)
| BUndefined                     (* [rows[0]] of an empty array *)
| BList (l : list student)       (* an array of row objects *)
| BError (msg : string)          (* { error: msg } *)
| BMessage (msg : string).       (* { message: msg } *)

Inductive event : Type :=
| Query (q : sql) (params : list jsval)   (* pool.query(text, params) *)
| Send (status : Z) (b : body)            (* res.status(status).json(b) *)
| ConsoleLog (line : string)              (* console.log(line) *)
| ConsoleError (line : option string) (e : pg_error)
                                          (* console.error([line,] e) *)
| Listen (port : Z).                      (* app.listen(port, ..) *)

(** [link = Some e]: the pool cannot reach the engine and rejects
    every statement with [e]. *)
Record world : Type := World {
  link : option pg_error;
  storage : option table;
  trace : list event
}.

Inductive outcome (A : Type) : Type :=
| Returned (a : A)
| Thrown (e : pg_error).
Arguments Returned {A} a.
Arguments Thrown {A} e.

(** An [async] computation: it runs to a value or to a rejection and
    leaves a world behind. *)
Definition M (A : Type) : Type := world → outcome A * world.

Definition ret {A} (a : A) : M A := λ w, (Returned a, w).

Definition bind {A B} (m : M A) (k : A → M B) : M B :=
  λ w, match m w with
       | (Returned a, w') => k a w'
       | (Thrown e, w') => (Thrown e, w')
       end.

(** [try { m } catch (error) { h error }] *)
Definition try_catch {A} (m : M A) (h : pg_error → M A) : M A :=
  λ w, match m w with
       | (Returned a, w') => (Returned a, w')
       | (Thrown e, w') => h e w'
       end.

Definition emit (ev : event) : M unit :=
  λ w, (Returned tt, World (link w) (storage w) (trace w ++ [ev])).

(** [await pool.query(text, params)]: the statement is issued once;
    it is rejected when the link is down or the engine refuses it, and
    resolves to [result.rows] otherwise. *)
Definition pool_query (q : sql) (params : list jsval) : M (list student) :=
  λ w,
    let tr := trace w ++ [Query q params] in
    match link w with
    | Some e => (Thrown e, World (link w) (storage w) tr)
    | None =>
        match exec q params (storage w) with
        | inl e => (Thrown e, World (link w) (storage w) tr)
        | inr (rs, st') => (Returned rs, World (link w) st' tr)
        end
    end.

Definition res_status_json (status : Z) (b : body) : M unit :=
  emit (Send status b).

Definition console_log (line : string) : M unit := emit (ConsoleLog line).

Definition console_error (line : option string) (e : pg_error) : M unit :=
  emit (ConsoleError line e).

(** [rows[0]] as a response body. *)
Definition first_row (rs : list student) : body :=
  match rs !! 0%nat with
  | Some r => BRecord r
  | None => BUndefined
  end.

(** [req]: the path parameters and the parsed JSON body. *)
Record request : Type := Request {
  params : gmap string string;
  reqbody : gmap string jsval
}.

(** [req.params.k] *)
Definition param (req : request) (k : string) : jsval :=
  match params req !! k with
  | Some s => JStr s
  | None => JUndefined
  end.

End Http.
Export Http.

Declare Scope async_scope.
Delimit Scope async_scope with async.
Notation "x ⇐ m ;; k" := (Http.bind m (λ x, k))
  (at level 100, m at next level, k at level 200, right associativity)
  : async_scope.
Notation "m ;;; k" := (Http.bind m (λ _, k))
  (at level 100, k at level 200, right associativity) : async_scope.

(** ** config/dbInit.js *)

Module DbInit.

(** The column widths of the [CREATE TABLE] text. *)
Definition query : sql := CREATE_TABLE_IF_NOT_EXISTS (Ddl 100 100 10).

Definition createStudentTable : M unit :=
  try_catch
    (_ ⇐ pool_query query [] ;;
     console_log "Students table created successfully or already exists.")%async
    (λ error, console_error (Some "Error creating students table:") error).

End DbInit.

(** ** index.js *)

Module Index.

Definition PORT : Z := 3000.

(** [await createStudentTable()], then [app.listen(PORT, callback)]; the
    callback writes the two lines once the server listens. *)
Definition initialize : M unit :=
  (DbInit.createStudentTable ;;;
   emit (Listen PORT) ;;;
   console_log ("Server is running on http://localhost:" +:+ Js.toString PORT) ;;;
   console_log ("Swagger docs available at http://localhost:"
                +:+ Js.toString PORT +:+ "/api-docs"))%async.

End Index.

(** ** routes/students.js *)

Module Students.

(** The [catch] block every handler ends with. *)
Definition database_error (error : pg_error) : M unit :=
  (console_error None error ;;;
   res_status_json 500 (BError "Database error"))%async.

(** [router.post('/')] *)
Definition post_students (req : request) : M unit :=
  let name := Js.field (reqbody req) "name" in
  let age := Js.field (reqbody req) "age" in
  let course := Js.field (reqbody req) "course" in
  let gender := Js.field (reqbody req) "gender" in
  try_catch
    (result_rows ⇐ pool_query INSERT_RETURNING [name; age; course; gender] ;;
     res_status_json 201 (first_row result_rows))%async
    database_error.

(** [router.get('/')] *)
Definition get_students (req : request) : M unit :=
  try_catch
    (result_rows ⇐ pool_query SELECT_ALL [] ;;
     res_status_json 200 (BList result_rows))%async
    database_error.

(** [router.get('/:id')] *)
Definition get_student_by_id (req : request) : M unit :=
  let id := param req "id" in
  try_catch
    (result_rows ⇐ pool_query (SELECT_WHERE Cid) [id] ;;
     if decide (length result_rows = 0%nat)
     then res_status_json 404 (BError "Student not found")
     else res_status_json 200 (first_row result_rows))%async
    database_error.

(** [router.put('/:id')] *)
Definition put_student_by_id (req : request) : M unit :=
  let id := param req "id" in
  let name := Js.field (reqbody req) "name" in
  let age := Js.field (reqbody req) "age" in
  let course := Js.field (reqbody req) "course" in
  let gender := Js.field (reqbody req) "gender" in
  try_catch
    (result_rows ⇐ pool_query UPDATE_WHERE_ID_RETURNING
                     [name; age; course; gender; id] ;;
     if decide (length result_rows = 0%nat)
     then res_status_json 404 (BError "Student not found")
     else res_status_json 200 (first_row result_rows))%async
    database_error.

(** [router.delete('/:id')] *)
Definition delete_student_by_id (req : request) : M unit :=
  let id := param req "id" in
  try_catch
    (result_rows ⇐ pool_query DELETE_WHERE_ID_RETURNING [id] ;;
     if decide (length result_rows = 0%nat)
     then res_status_json 404 (BError "Student not found")
     else res_status_json 200 (BMessage "Student deleted successfully"))%async
    database_error.

(** [router.get('/gender/:gender')] *)
Definition get_students_by_gender (req : request) : M unit :=
  let gender := param req "gender" in
  try_catch
    (result_rows ⇐ pool_query (SELECT_WHERE Cgender) [gender] ;;
     res_status_json 200 (BList result_rows))%async
    database_error.

(** [router.get('/course/:course')] *)
Definition get_students_by_course (req : request) : M unit :=
  let course := param req "course" in
  try_catch
    (result_rows ⇐ pool_query (SELECT_WHERE Ccourse) [course] ;;
     res_status_json 200 (BList result_rows))%async
    database_error.

(** [router.get('/name/:name')] *)
Definition get_student_by_name (req : request) : M unit :=
  let name := param req "name" in
  try_catch
    (result_rows ⇐ pool_query (SELECT_WHERE Cname) [name] ;;
     if decide (length result_rows = 0%nat)
     then res_status_json 404 (BError "Student not found")
     else res_status_json 200 (first_row result_rows))%async
    database_error.

(** The eight operations, and the handler of each. *)
Inductive operation : Type :=
| Create | List | GetById | UpdateById | DeleteById
| ListByGender | ListByCourse | GetByName.

Definition handler (op : operation) : request → M unit :=
  match op with
  | Create => post_students
  | List => get_students
  | GetById => get_student_by_id
  | UpdateById => put_student_by_id
  | DeleteById => delete_student_by_id
  | ListByGender => get_students_by_gender
  | ListByCourse => get_students_by_course
  | GetByName => get_student_by_name
  end.

End Students.
Export Students.

(** ** Observations on a run *)

(** The responses sent, in order. *)
Definition responses (tr : list event) : list (Z * body) :=
  omap (λ ev, match ev with Send s b => Some (s, b) | _ => None end) tr.

(** The statements issued, in order. *)
Definition statements (tr : list event) : list (sql * list jsval) :=
  omap (λ ev, match ev with Query q ps => Some (q, ps) | _ => None end) tr.

(** A world in which nothing has happened yet. *)
Definition fresh (l : option pg_error) (st : option table) : world :=
  World l st [].

(** A request on the path parameter [k], with a body. *)
Definition req_with (k v : string) (b : gmap string jsval) : request :=
  Request {[ k := v ]} b.

(** The body [{name, age, course, gender}]. *)
Definition student_body (n a c g : jsval) : gmap string jsval :=
  <["name" := n]> (<["age" := a]> (<["course" := c]> (<["gender" := g]> ∅))).

(** The events a computation adds to the trace, and the responses among
    them. *)
Definition events_of (m : M unit) (w : world) : list event :=
  drop (length (trace w)) (trace (m w).2).

Definition replies (m : M unit) (w : world) : list (Z * body) :=
  responses (events_of m w).

(** The statement each operation awaits, as its handler builds it from
    the request. *)
Definition statement_of (op : operation) (req : request)
  : sql * list jsval :=
  let b := reqbody req in
  match op with
  | Create =>
      (INSERT_RETURNING,
       [Js.field b "name"; Js.field b "age"; Js.field b "course";
        Js.field b "gender"])
  | List => (SELECT_ALL, [])
  | GetById => (SELECT_WHERE Cid, [param req "id"])
  | UpdateById =>
      (UPDATE_WHERE_ID_RETURNING,
       [Js.field b "name"; Js.field b "age"; Js.field b "course";
        Js.field b "gender"; param req "id"])
  | DeleteById => (DELETE_WHERE_ID_RETURNING, [param req "id"])
  | ListByGender => (SELECT_WHERE Cgender, [param req "gender"])
  | ListByCourse => (SELECT_WHERE Ccourse, [param req "course"])
  | GetByName => (SELECT_WHERE Cname, [param req "name"])
  end.

(** The error a statement is rejected with in a world, if it is. *)
Definition rejection (s : sql * list jsval) (w : world) : option pg_error :=
  match link w with
  | Some e => Some e
  | None =>
      match exec s.1 s.2 (storage w) with
      | inl e => Some e
      | inr _ => None
      end
  end.

(** The storage answers: the link is up and the relation exists. *)
Definition serving (w : world) (t : table) : Prop :=
  link w = None ∧ storage w = Some t.

(** The ids present in a table. *)
Definition ids (t : table) : list Z := id <$> rows t.

(** Every id in the table was handed out by the sequence before its
    current value. *)
Definition well_formed (t : table) : Prop := ∀ i, i ∈ ids t → i < seq t.

(** The body carries four values the columns accept, stored as [nm],
    [ag], [co] and [ge]. *)
Definition accepted (d : ddl) (b : gmap string jsval)
    (nm : string) (ag : Z) (co ge : string) : Prop :=
  prepareValue (Js.field b "name") = Some nm ∧
  (String.length nm ≤ name_width d)%nat ∧
  bind_int4 (Js.field b "age") = inr (Some ag) ∧
  prepareValue (Js.field b "course") = Some co ∧
  (String.length co ≤ course_width d)%nat ∧
  prepareValue (Js.field b "gender") = Some ge ∧
  (String.length ge ≤ gender_width d)%nat.

(** What an accepted [UPDATE] does to the rows: the ones with the id
    become the new row; the others stay. *)
Definition replaced (n : Z) (new : student) (l : list student)
  : list student :=
  (λ r, if decide (id r = n) then new else r) <$> l.

(** ** Sample data *)

Definition demo_table : table :=
  Table (Ddl 100 100 10)
        [Student 1 "Ann" 20 "CS" "female"; Student 2 "Bob" 22 "Math" "male";
         Student 4 "Ann" 31 "Math" "female"]
        5.

Definition started : world := fresh None (Some (Table (Ddl 100 100 10) [] 1)).

Definition demo_world : world := fresh None (Some demo_table).

Definition ann_request : request :=
  Request ∅ (student_body (JStr "Ann") (JNum 20) (JStr "CS") (JStr "female")).

Definition bea_body : gmap string jsval :=
  student_body (JStr "Bea") (JNum 23) (JStr "Physics") (JStr "female").

Definition bob : student := Student 2 "Bob" 22 "Math" "male".

(** ** Requests one after the other *)

(** The world a computation leaves behind. *)
Definition after (m : M unit) (w : world) : world := (m w).2.

(** The response codes the [@swagger] block above each route lists. *)
Definition documented (op : operation) : list Z :=
  match op with
  | Create => [201; 500]
  | List | ListByGender | ListByCourse => [200; 500]
  | GetById | UpdateById | DeleteById | GetByName => [200; 404; 500]
  end.

(** The routes registered with [router.get]. *)
Definition is_get (op : operation) : bool :=
  match op with
  | Create | UpdateById | DeleteById => false
  | List | GetById | ListByGender | ListByCourse | GetByName => true
  end.

(** What the [try] block of each handler sends once its statement has
    resolved to [rs]. *)
Definition answer (op : operation) (rs : list student) : Z * body :=
  match op with
  | Create => (201, first_row rs)
  | List | ListByGender | ListByCourse => (200, BList rs)
  | GetById | UpdateById | GetByName =>
      if decide (length rs = 0%nat)
      then (404, BError "Student not found")
      else (200, first_row rs)
  | DeleteById =>
      if decide (length rs = 0%nat)
      then (404, BError "Student not found")
      else (200, BMessage "Student deleted successfully")
  end.

(** The primary key holds: no two rows share an id. *)
Definition unique_ids (t : table) : Prop := NoDup (ids t).

(** Requests handled one after the other, in the order in which their
    statements reach the storage. *)
Fixpoint serve (reqs : list (operation * request)) : M unit :=
  match reqs with
  | [] => ret tt
  | (op, req) :: rest => bind (handler op req) (λ _, serve rest)
  end.

(** The ids of the records sent back with 201, in order. *)
Definition created_ids (l : list (Z * body)) : list Z :=
  omap (λ sb, if decide (sb.1 = 201)
              then match sb.2 with BRecord r => Some (id r) | _ => None end
              else None) l.

(** * Properties *)

(** ** The integer syntax *)

Lemma int4in_toString (n : Z) :
  int4_min <= n <= int4_max → int4in (Js.toString n) = inr n.
Proof.
  intros Hn. unfold int4in, Js.toString.
  assert (Hi : NilZero.int_of_string (NilZero.string_of_int (Z.to_int n))
               = Some (Z.to_int n)).
  { apply NilZero.isi.
    - intros E. pose proof (f_equal Z.of_int E) as E'.
      rewrite DecimalZ.of_to in E'. subst n. discriminate E.
    - intros E. pose proof (f_equal Z.of_int E) as E'.
      rewrite DecimalZ.of_to in E'. subst n. discriminate E. }
  rewrite Hi. cbn zeta. rewrite DecimalZ.of_to.
  rewrite bool_decide_eq_true_2; [reflexivity | exact Hn].
Qed.

Lemma bind_int4_param (s : string) (n : Z) :
  int4in s = inr n → bind_int4 (JStr s) = inr (Some n).
Proof. intros H. unfold bind_int4. cbn. rewrite H. reflexivity. Qed.

(** ** The pool *)

Lemma pool_query_resolved q ps w rs st' :
  link w = None →
  exec q ps (storage w) = inr (rs, st') →
  pool_query q ps w = (Returned rs, World None st' (trace w ++ [Query q ps])).
Proof. intros Hl He. unfold pool_query. rewrite Hl, He. reflexivity. Qed.

Lemma pool_query_rejected q ps w e :
  rejection (q, ps) w = Some e →
  pool_query q ps w
  = (Thrown e, World (link w) (storage w) (trace w ++ [Query q ps])).
Proof.
  unfold rejection, pool_query. cbn.
  destruct (link w) as [e'|]; [intros [= ->]; reflexivity|].
  destruct (exec q ps (storage w)) as [e'|[rs st']]; [|discriminate].
  intros [= ->]. reflexivity.
Qed.

Lemma events_of_app (m : M unit) (w : world) o l s evs :
  m w = (o, World l s (trace w ++ evs)) → events_of m w = evs.
Proof.
  intros E. unfold events_of. rewrite E. cbn.
  rewrite drop_app_length. reflexivity.
Qed.

(** A rejected statement: the handler logs the error, answers 500 with
    the fixed body and returns; link and storage are as before. *)
Lemma handler_rejected op req w e :
  rejection (statement_of op req) w = Some e →
  handler op req w
  = (Returned tt,
     World (link w) (storage w)
       (trace w ++ [Query (statement_of op req).1 (statement_of op req).2;
                    ConsoleError None e;
                    Send 500 (BError "Database error")])).
Proof.
  intros H.
  destruct op; cbn in H |- *;
    match goal with
    | |- ?h req w = _ => unfold h
    end;
    unfold try_catch, bind; cbn zeta;
    rewrite (pool_query_rejected _ _ _ _ H);
    unfold database_error, bind, console_error, res_status_json, emit; cbn;
    rewrite <- !app_assoc; reflexivity.
Qed.

(** ** The engine *)

Lemma checked_row_inr d i vn va vc vg r :
  checked_row d i vn va vc vg = inr r →
  id r = i ∧ vn = Some (name r) ∧ va = Some (age r) ∧
  vc = Some (course r) ∧ vg = Some (gender r) ∧
  (String.length (name r) ≤ name_width d)%nat ∧
  (String.length (course r) ≤ course_width d)%nat ∧
  (String.length (gender r) ≤ gender_width d)%nat.
Proof.
  unfold checked_row, varchar_not_null, int4_not_null.
  destruct vn as [n|]; [|discriminate].
  case_bool_decide; [|discriminate].
  destruct va as [a|]; [|discriminate].
  destruct vc as [c|]; [|discriminate].
  case_bool_decide; [|discriminate].
  destruct vg as [g|]; [|discriminate].
  case_bool_decide; [|discriminate].
  intros [= <-]. cbn. auto 10.
Qed.

Lemma checked_row_accepted d i nm ag co ge :
  (String.length nm ≤ name_width d)%nat →
  (String.length co ≤ course_width d)%nat →
  (String.length ge ≤ gender_width d)%nat →
  checked_row d i (Some nm) (Some ag) (Some co) (Some ge)
  = inr (Student i nm ag co ge).
Proof.
  intros Hn Hc Hg. unfold checked_row, varchar_not_null, int4_not_null.
  rewrite !bool_decide_eq_true_2 by assumption. reflexivity.
Qed.

Lemma exec_insert_inr t p1 p2 p3 p4 rs st' :
  exec INSERT_RETURNING [p1; p2; p3; p4] (Some t) = inr (rs, st') →
  ∃ r a,
    bind_int4 p2 = inr a ∧
    int4_min <= seq t <= int4_max ∧
    checked_row (widths t) (seq t) (prepareValue p1) a
      (prepareValue p3) (prepareValue p4) = inr r ∧
    (seq t ∉ ids t) ∧
    rs = [r] ∧
    st' = Some (Table (widths t) (rows t ++ [r]) (seq t + 1)).
Proof.
  cbn. destruct (bind_int4 p2) as [e|a]; [discriminate|].
  case_bool_decide as Hr; [|discriminate].
  destruct (checked_row _ _ _ _ _ _) as [e|r] eqn:Hc; [discriminate|].
  destruct (decide _) as [Hin|Hnin]; [discriminate|].
  intros [= <- <-]. exists r, a. auto 10.
Qed.

Lemma exec_undefined_table q ps rs st' :
  exec q ps None = inr (rs, st') →
  ∃ d, q = CREATE_TABLE_IF_NOT_EXISTS d.
Proof.
  destruct q; cbn; try discriminate; eauto.
  all: destruct ps as [|? [|? [|? [|? [|? [|? ?]]]]]]; discriminate.
Qed.

Lemma filter_id_absent (n : Z) (l : list student) :
  n ∉ id <$> l → filter (λ r, id r = n) l = [].
Proof.
  induction l as [|r l IH]; [reflexivity|].
  rewrite fmap_cons, not_elem_of_cons. intros [Hne Hl].
  rewrite filter_cons_False by congruence. auto.
Qed.

Lemma filter_id_present (n : Z) (l : list student) :
  n ∈ id <$> l → ∃ r l', filter (λ r, id r = n) l = r :: l' ∧ r ∈ l ∧ id r = n.
Proof.
  intros Hin. apply list_elem_of_fmap in Hin as (r & -> & Hr).
  assert (Hf : r ∈ filter (λ r0, id r0 = id r) l)
    by (apply list_elem_of_filter; auto).
  destruct (filter _ l) as [|r' l'] eqn:E; [inversion Hf|].
  assert (Hr' : r' ∈ filter (λ r0, id r0 = id r) l)
    by (rewrite E; left).
  apply list_elem_of_filter in Hr' as [? ?]. eauto.
Qed.

Lemma exec_select_id t s n :
  int4in s = inr n →
  exec (SELECT_WHERE Cid) [JStr s] (Some t)
  = inr (filter (λ r, id r = n) (rows t), Some t).
Proof.
  intros H. cbn -[bind_int4]. rewrite (bind_int4_param _ _ H).
  do 2 f_equal. apply list_filter_iff. intros r. cbn.
  split; [intros [= ->]; reflexivity | intros ->; reflexivity].
Qed.

Lemma exec_select_text t c s :
  is_int_column c = false →
  exec (SELECT_WHERE c) [JStr s] (Some t)
  = inr (filter (λ r, text_column c r = Some s) (rows t), Some t).
Proof. intros H. cbn. rewrite H. reflexivity. Qed.

Lemma exec_delete_id t s n :
  int4in s = inr n →
  exec DELETE_WHERE_ID_RETURNING [JStr s] (Some t)
  = inr (filter (λ r, id r = n) (rows t),
         Some (Table (widths t) (filter (λ r, id r ≠ n) (rows t)) (seq t))).
Proof.
  intros H. cbn -[bind_int4]. rewrite (bind_int4_param _ _ H). reflexivity.
Qed.

(** ** The handlers on a statement that resolves *)

Ltac resolve_query H :=
  unfold try_catch, bind; cbn zeta;
  erewrite pool_query_resolved by (first [eassumption | exact H]);
  cbn iota beta.

Ltac send_reply :=
  unfold res_status_json, emit; cbn; rewrite <- ?app_assoc; reflexivity.

Lemma param_lookup req k s :
  params req !! k = Some s → param req k = JStr s.
Proof. intros H. unfold param. rewrite H. reflexivity. Qed.

(** Get-by-id on an id the column can hold: one [SELECT], and 404 or
    the first matching row. *)
Lemma get_student_by_id_resolved req w t s n :
  serving w t →
  params req !! "id" = Some s →
  int4in s = inr n →
  get_student_by_id req w
  = (Returned tt,
     World None (Some t)
       (trace w ++ [Query (SELECT_WHERE Cid) [JStr s];
                    match filter (λ r, id r = n) (rows t) with
                    | [] => Send 404 (BError "Student not found")
                    | r :: _ => Send 200 (BRecord r)
                    end])).
Proof.
  intros [Hl Hs] Hp Hi. unfold get_student_by_id.
  rewrite (param_lookup _ _ _ Hp).
  assert (He : exec (SELECT_WHERE Cid) [JStr s] (storage w)
               = inr (filter (λ r, id r = n) (rows t), Some t))
    by (rewrite Hs; apply exec_select_id, Hi).
  resolve_query He.
  destruct (filter _ (rows t)) as [|r l]; case_decide;
    try discriminate; try (exfalso; auto; fail); send_reply.
Qed.

Lemma not_rejected_resolved s w :
  rejection s w = None →
  link w = None ∧ ∃ rs st', exec s.1 s.2 (storage w) = inr (rs, st').
Proof.
  unfold rejection. destruct (link w); [discriminate|].
  destruct (exec _ _ _) as [e|[rs st']]; [discriminate|]. eauto.
Qed.

(** ** Create *)

(** A create whose [INSERT] resolves: the row made of the sequence value
    and the four body fields is appended and sent back with 201. *)
Lemma post_students_resolved (req : request) (w : world) :
  rejection (statement_of Create req) w = None →
  ∃ t r,
    storage w = Some t ∧
    id r = seq t ∧ int4_min <= id r <= int4_max ∧ (id r ∉ ids t) ∧
    prepareValue (Js.field (reqbody req) "name") = Some (name r) ∧
    bind_int4 (Js.field (reqbody req) "age") = inr (Some (age r)) ∧
    prepareValue (Js.field (reqbody req) "course") = Some (course r) ∧
    prepareValue (Js.field (reqbody req) "gender") = Some (gender r) ∧
    post_students req w
    = (Returned tt,
       World None (Some (Table (widths t) (rows t ++ [r]) (seq t + 1)))
         (trace w ++ [Query INSERT_RETURNING (statement_of Create req).2;
                      Send 201 (BRecord r)])).
Proof.
  intros Hok.
  apply not_rejected_resolved in Hok as (Hl & rs & st' & He).
  cbn [fst snd statement_of] in He.
  destruct (storage w) as [t|] eqn:Hs;
    [|apply exec_undefined_table in He as [d Hd]; discriminate].
  pose proof He as He'.
  apply exec_insert_inr in He' as (r & a & Ha & Hr & Hc & Hf & -> & ->).
  apply checked_row_inr in Hc as (Hid & Hn & -> & Hco & Hg & _).
  exists t, r. rewrite Hid.
  split; [reflexivity|]. split; [reflexivity|]. split; [exact Hr|].
  split; [exact Hf|]. split; [exact Hn|]. split; [exact Ha|].
  split; [exact Hco|]. split; [exact Hg|].
  unfold post_students. rewrite <- Hs in He. resolve_query He. send_reply.
Qed.

(** C1.  A create request whose [INSERT] the storage does not reject is
    answered, once, with 201 and the created row: its [id] is the value
    of the sequence, an integer no row of the table had, and its other
    four columns hold the values of the body fields [name], [age],
    [course] and [gender]; the row is appended to the table.  A
    Get-by-id on the decimal text of that [id], run next, is answered
    with 200 and the very same row. *)
Theorem create_then_get_by_id (req : request) (w : world) :
  rejection (statement_of Create req) w = None →
  ∃ t r,
    storage w = Some t ∧
    id r = seq t ∧ int4_min <= id r <= int4_max ∧ (id r ∉ ids t) ∧
    prepareValue (Js.field (reqbody req) "name") = Some (name r) ∧
    bind_int4 (Js.field (reqbody req) "age") = inr (Some (age r)) ∧
    prepareValue (Js.field (reqbody req) "course") = Some (course r) ∧
    prepareValue (Js.field (reqbody req) "gender") = Some (gender r) ∧
    let created := Some (Table (widths t) (rows t ++ [r]) (seq t + 1)) in
    let w1 :=
      World None created
        (trace w ++ [Query INSERT_RETURNING (statement_of Create req).2;
                     Send 201 (BRecord r)]) in
    post_students req w = (Returned tt, w1) ∧
    ∀ req', params req' !! "id" = Some (Js.toString (id r)) →
      get_student_by_id req' w1
      = (Returned tt,
         World None created
           (trace w1 ++ [Query (SELECT_WHERE Cid) [JStr (Js.toString (id r))];
                         Send 200 (BRecord r)])).
Proof.
  intros Hok.
  destruct (post_students_resolved req w Hok)
    as (t & r & Hs & Hid & Hr & Hf & Hn & Ha & Hco & Hg & Hpost).
  exists t, r. do 8 (split; [assumption|]). cbn zeta.
  split; [exact Hpost|]. intros req' Hp.
  erewrite get_student_by_id_resolved;
    [ | split; reflexivity | exact Hp | apply int4in_toString, Hr ].
  cbn [rows]. rewrite filter_app, filter_id_absent by exact Hf.
  rewrite filter_cons_True by reflexivity. reflexivity.
Qed.

(** ** Get-by-id *)

(** C4, as the code has it.  For a Get-by-id whose id is an integer the
    [id] column can hold, on a storage that answers: one [SELECT] is
    issued; the status is 404, with the body [{error: 'Student not
    found'}], exactly when no row of the table has that id, and is 200
    with a row of the table that has that id otherwise; link and storage
    are as before. *)
Theorem get_by_id_404_iff_no_row (req : request) (w : world) t s n :
  serving w t →
  params req !! "id" = Some s →
  int4in s = inr n →
  ∃ status b,
    get_student_by_id req w
    = (Returned tt,
       World (link w) (storage w)
         (trace w ++ [Query (SELECT_WHERE Cid) [JStr s]; Send status b])) ∧
    (status = 404 ↔ n ∉ ids t) ∧
    (n ∉ ids t → b = BError "Student not found") ∧
    (n ∈ ids t →
       status = 200 ∧ ∃ r, b = BRecord r ∧ r ∈ rows t ∧ id r = n).
Proof.
  intros Hsv Hp Hi.
  rewrite (get_student_by_id_resolved _ _ _ _ _ Hsv Hp Hi).
  destruct Hsv as [-> ->].
  destruct (decide (n ∈ ids t)) as [Hin|Hnin].
  - destruct (filter_id_present _ _ Hin) as (r & l' & -> & Hr & Hid).
    exists 200, (BRecord r). split; [reflexivity|].
    split; [split; [discriminate | intros Hn; contradiction]|].
    split; [intros Hn; contradiction|]. intros _. eauto.
  - rewrite (filter_id_absent _ _ Hnin).
    exists 404, (BError "Student not found"). split; [reflexivity|].
    split; [split; auto|]. split; [auto|]. intros Hin. contradiction.
Qed.

(** ** Delete-by-id *)

Lemma ids_filter_ne (n : Z) (l : list student) :
  n ∉ id <$> filter (λ r, id r ≠ n) l.
Proof.
  intros Hin. apply list_elem_of_fmap in Hin as (r & -> & Hr).
  apply list_elem_of_filter in Hr as [Hne _]. congruence.
Qed.

Lemma filter_ne_absent (n : Z) (l : list student) :
  n ∉ id <$> l → filter (λ r, id r ≠ n) l = l.
Proof.
  induction l as [|r l IH]; [reflexivity|].
  rewrite fmap_cons, not_elem_of_cons. intros [Hne Hl].
  rewrite filter_cons_True by congruence. f_equal. auto.
Qed.

Lemma delete_student_by_id_resolved req w t s n :
  serving w t →
  params req !! "id" = Some s →
  int4in s = inr n →
  delete_student_by_id req w
  = (Returned tt,
     World None
       (Some (Table (widths t) (filter (λ r, id r ≠ n) (rows t)) (seq t)))
       (trace w ++ [Query DELETE_WHERE_ID_RETURNING [JStr s];
                    match filter (λ r, id r = n) (rows t) with
                    | [] => Send 404 (BError "Student not found")
                    | _ :: _ =>
                        Send 200 (BMessage "Student deleted successfully")
                    end])).
Proof.
  intros [Hl Hs] Hp Hi. unfold delete_student_by_id.
  rewrite (param_lookup _ _ _ Hp).
  pose proof (exec_delete_id t s n Hi) as He. rewrite <- Hs in He.
  resolve_query He.
  destruct (filter (λ r, id r = n) (rows t)) as [|r l]; case_decide;
    try discriminate; try (exfalso; auto; fail); send_reply.
Qed.

(** C3, as the code has it.  For a Delete-by-id whose id is an integer
    the [id] column can hold, on a storage that answers: when a row has
    that id, every such row is removed and no other, the answer is 200
    with [{message: 'Student deleted successfully'}], and a Get-by-id on
    that id run next is answered with 404; when no row has it, the
    answer is 404 and the table is the one before. *)
Theorem delete_by_id_removes_or_404 (req : request) (w : world) t s n :
  serving w t →
  params req !! "id" = Some s →
  int4in s = inr n →
  (n ∈ ids t →
     let t' := Table (widths t) (filter (λ r, id r ≠ n) (rows t)) (seq t) in
     let w1 :=
       World None (Some t')
         (trace w ++ [Query DELETE_WHERE_ID_RETURNING [JStr s];
                      Send 200 (BMessage "Student deleted successfully")]) in
     delete_student_by_id req w = (Returned tt, w1) ∧
     (n ∉ ids t') ∧
     (∀ r, r ∈ rows t' ↔ r ∈ rows t ∧ id r ≠ n) ∧
     get_student_by_id req w1
     = (Returned tt,
        World None (Some t')
          (trace w1 ++ [Query (SELECT_WHERE Cid) [JStr s];
                        Send 404 (BError "Student not found")]))) ∧
  (n ∉ ids t →
     delete_student_by_id req w
     = (Returned tt,
        World None (Some t)
          (trace w ++ [Query DELETE_WHERE_ID_RETURNING [JStr s];
                       Send 404 (BError "Student not found")]))).
Proof.
  intros Hsv Hp Hi.
  rewrite (delete_student_by_id_resolved _ _ _ _ _ Hsv Hp Hi).
  split.
  - intros Hin. cbn zeta.
    destruct (filter_id_present _ _ Hin) as (r & l' & -> & _ & _).
    split; [reflexivity|]. split; [apply ids_filter_ne|].
    split; [intros r'; cbn; rewrite list_elem_of_filter; tauto|].
    erewrite get_student_by_id_resolved;
      [ | split; reflexivity | exact Hp | exact Hi ].
    cbn [rows]. rewrite filter_id_absent by apply ids_filter_ne.
    reflexivity.
  - intros Hnin. rewrite (filter_id_absent _ _ Hnin).
    rewrite (filter_ne_absent _ _ Hnin). destruct t; reflexivity.
Qed.

(** ** Update-by-id *)

Lemma update_rows_accepted d n nm ag co ge l :
  (String.length nm ≤ name_width d)%nat →
  (String.length co ≤ course_width d)%nat →
  (String.length ge ≤ gender_width d)%nat →
  update_rows d n (Some nm) (Some ag) (Some co) (Some ge) l
  = inr ((λ _, Student n nm ag co ge) <$> filter (λ r, id r = n) l,
         replaced n (Student n nm ag co ge) l).
Proof.
  intros Hn Hc Hg. induction l as [|r l IH]; [reflexivity|].
  cbn [update_rows]. rewrite IH. unfold replaced. rewrite fmap_cons.
  destruct (decide (id r = n)) as [E|E].
  - rewrite checked_row_accepted by assumption.
    rewrite filter_cons_True by exact E. rewrite E. reflexivity.
  - rewrite filter_cons_False by exact E. reflexivity.
Qed.

Lemma replaced_absent n new l :
  n ∉ id <$> l → replaced n new l = l.
Proof.
  induction l as [|r l IH]; [reflexivity|].
  rewrite fmap_cons, not_elem_of_cons. intros [Hne Hl].
  unfold replaced in *. rewrite fmap_cons, IH by exact Hl.
  rewrite decide_False by congruence. reflexivity.
Qed.

Lemma exec_update_accepted t b s n nm ag co ge :
  int4in s = inr n →
  accepted (widths t) b nm ag co ge →
  exec UPDATE_WHERE_ID_RETURNING
    [Js.field b "name"; Js.field b "age"; Js.field b "course";
     Js.field b "gender"; JStr s] (Some t)
  = inr ((λ _, Student n nm ag co ge) <$> filter (λ r, id r = n) (rows t),
         Some (Table (widths t)
                 (replaced n (Student n nm ag co ge) (rows t)) (seq t))).
Proof.
  intros Hi (Hn & Hnl & Ha & Hc & Hcl & Hg & Hgl).
  cbn -[bind_int4]. rewrite Ha, (bind_int4_param _ _ Hi), Hn, Hc, Hg.
  rewrite update_rows_accepted by assumption. reflexivity.
Qed.

(** C2, as the code has it.  For an Update-by-id whose id is an integer
    the [id] column can hold and whose body carries four values the
    columns accept, on a storage that answers: when a row has that id,
    its four fields become the values of the body, its id stays, no
    other row changes and none is added, and the answer is 200 with the
    updated row; when no row has it, the answer is 404 and the table is
    the one before. *)
Theorem update_by_id_replaces_or_404
    (req : request) (w : world) t s n nm ag co ge :
  serving w t →
  params req !! "id" = Some s →
  int4in s = inr n →
  accepted (widths t) (reqbody req) nm ag co ge →
  let new := Student n nm ag co ge in
  let q := Query UPDATE_WHERE_ID_RETURNING (statement_of UpdateById req).2 in
  (n ∈ ids t →
     put_student_by_id req w
     = (Returned tt,
        World None
          (Some (Table (widths t) (replaced n new (rows t)) (seq t)))
          (trace w ++ [q; Send 200 (BRecord new)])) ∧
     length (replaced n new (rows t)) = length (rows t) ∧
     ∀ i r, rows t !! i = Some r →
       replaced n new (rows t) !! i
       = Some (if decide (id r = n) then new else r)) ∧
  (n ∉ ids t →
     put_student_by_id req w
     = (Returned tt,
        World None (Some t)
          (trace w ++ [q; Send 404 (BError "Student not found")]))).
Proof.
  intros [Hl Hs] Hp Hi Hacc new q.
  pose proof (exec_update_accepted t _ s n nm ag co ge Hi Hacc) as He.
  rewrite <- Hs in He.
  assert (Hrun : ∀ ret : list student,
    ret = (λ _, new) <$> filter (λ r, id r = n) (rows t) →
    put_student_by_id req w
    = (Returned tt,
       World None
         (Some (Table (widths t) (replaced n new (rows t)) (seq t)))
         (trace w ++ [q; match ret with
                         | [] => Send 404 (BError "Student not found")
                         | r :: _ => Send 200 (BRecord r)
                         end]))).
  { intros ret ->. unfold put_student_by_id.
    rewrite (param_lookup _ _ _ Hp). resolve_query He.
    subst q. cbn [statement_of snd]. rewrite (param_lookup _ _ _ Hp).
    destruct (filter (λ r, id r = n) (rows t)) as [|r l]; case_decide;
      try discriminate; try (exfalso; auto; fail); send_reply. }
  split.
  - intros Hin.
    destruct (filter_id_present _ _ Hin) as (r & l' & E & _ & _).
    split; [|split].
    + erewrite Hrun by reflexivity. rewrite E. reflexivity.
    + unfold replaced. apply length_fmap.
    + intros i r' Hi'. unfold replaced. rewrite list_lookup_fmap, Hi'.
      reflexivity.
  - intros Hnin. erewrite Hrun by reflexivity.
    rewrite (filter_id_absent _ _ Hnin), (replaced_absent _ _ _ Hnin).
    destruct t; reflexivity.
Qed.

(** ** The filtered lists *)

Lemma select_text_resolved (c : column) (k : string) req w t s :
  is_int_column c = false →
  serving w t →
  params req !! k = Some s →
  pool_query (SELECT_WHERE c) [param req k] w
  = (Returned (filter (λ r, text_column c r = Some s) (rows t)),
     World None (Some t) (trace w ++ [Query (SELECT_WHERE c) [JStr s]])).
Proof.
  intros Hc [Hl Hs] Hp. rewrite (param_lookup _ _ _ Hp).
  apply pool_query_resolved; [exact Hl|].
  rewrite Hs. apply exec_select_text, Hc.
Qed.

Lemma filter_text_column c (f : student → string) s (l : list student) :
  (∀ r, text_column c r = Some (f r)) →
  filter (λ r, text_column c r = Some s) l = filter (λ r, f r = s) l.
Proof.
  intros Hf. apply list_filter_iff. intros r. rewrite Hf.
  split; [intros [= ->]; reflexivity | intros ->; reflexivity].
Qed.

Lemma filter_none (P : student → Prop) `{!∀ r, Decision (P r)}
    (l : list student) :
  (∀ r, r ∈ l → ¬ P r) → filter P l = [].
Proof.
  induction l as [|r l IH]; [reflexivity|]. intros Hno.
  rewrite filter_cons_False by (apply Hno; left).
  apply IH. intros r' Hr'. apply Hno. right. exact Hr'.
Qed.

(** C5.  On a storage that answers, for every table and every path
    value, List-by-gender and List-by-course answer 200 with the rows of
    the table whose [gender] (respectively [course]) is equal to the
    path value as a string, byte for byte, in table order, and no other
    row; when no row qualifies the answer is still 200, with the empty
    array. *)
Theorem list_by_gender_and_course_exact (req : request) (w : world) t :
  serving w t →
  (∀ g, params req !! "gender" = Some g →
     let l := filter (λ r, gender r = g) (rows t) in
     get_students_by_gender req w
     = (Returned tt,
        World None (Some t)
          (trace w ++ [Query (SELECT_WHERE Cgender) [JStr g];
                       Send 200 (BList l)])) ∧
     (∀ r, r ∈ l ↔ r ∈ rows t ∧ gender r = g) ∧
     ((∀ r, r ∈ rows t → gender r ≠ g) → l = [])) ∧
  (∀ c, params req !! "course" = Some c →
     let l := filter (λ r, course r = c) (rows t) in
     get_students_by_course req w
     = (Returned tt,
        World None (Some t)
          (trace w ++ [Query (SELECT_WHERE Ccourse) [JStr c];
                       Send 200 (BList l)])) ∧
     (∀ r, r ∈ l ↔ r ∈ rows t ∧ course r = c) ∧
     ((∀ r, r ∈ rows t → course r ≠ c) → l = [])).
Proof.
  intros Hsv. split.
  - intros g Hp l. split; [|split].
    + unfold get_students_by_gender, try_catch, bind.
      rewrite (select_text_resolved Cgender "gender" _ _ _ _ eq_refl Hsv Hp).
      rewrite (filter_text_column Cgender gender) by reflexivity.
      send_reply.
    + intros r. subst l. rewrite list_elem_of_filter. tauto.
    + intros Hno. subst l. apply filter_none. exact Hno.
  - intros c Hp l. split; [|split].
    + unfold get_students_by_course, try_catch, bind.
      rewrite (select_text_resolved Ccourse "course" _ _ _ _ eq_refl Hsv Hp).
      rewrite (filter_text_column Ccourse course) by reflexivity.
      send_reply.
    + intros r. subst l. rewrite list_elem_of_filter. tauto.
    + intros Hno. subst l. apply filter_none. exact Hno.
Qed.

(** ** Get-by-name *)

(** C6.  On a storage that answers: when at least one row of the table
    has the requested name, Get-by-name answers 200 with one record,
    which is a row of the table with that name; when none has it, the
    answer is 404. *)
Theorem get_by_name_one_of_the_matches (req : request) (w : world) t s :
  serving w t →
  params req !! "name" = Some s →
  let matching := filter (λ r, name r = s) (rows t) in
  ((1 ≤ length matching)%nat →
     ∃ r, r ∈ matching ∧ r ∈ rows t ∧ name r = s ∧
       get_student_by_name req w
       = (Returned tt,
          World None (Some t)
            (trace w ++ [Query (SELECT_WHERE Cname) [JStr s];
                         Send 200 (BRecord r)]))) ∧
  (length matching = 0%nat →
     get_student_by_name req w
     = (Returned tt,
        World None (Some t)
          (trace w ++ [Query (SELECT_WHERE Cname) [JStr s];
                       Send 404 (BError "Student not found")]))).
Proof.
  intros Hsv Hp matching.
  assert (Hrun : get_student_by_name req w
    = (Returned tt,
       World None (Some t)
         (trace w ++ [Query (SELECT_WHERE Cname) [JStr s];
                      match matching with
                      | [] => Send 404 (BError "Student not found")
                      | r :: _ => Send 200 (BRecord r)
                      end]))).
  { unfold get_student_by_name, try_catch, bind.
    rewrite (select_text_resolved Cname "name" _ _ _ _ eq_refl Hsv Hp).
    rewrite (filter_text_column Cname name) by reflexivity.
    fold matching. destruct matching as [|r l]; case_decide;
      try discriminate; try (exfalso; auto; fail); send_reply. }
  rewrite Hrun. split.
  - intros Hlen. destruct matching as [|r l] eqn:E; [cbn in Hlen; lia|].
    assert (Hr : r ∈ filter (λ r, name r = s) (rows t))
      by (fold matching; rewrite E; left).
    apply list_elem_of_filter in Hr as [Hn Hr].
    exists r. split; [left|]. auto.
  - intros Hlen. destruct matching; [reflexivity|discriminate].
Qed.

(** ** Storage errors *)

(** C7.  Whatever the operation and whatever error its statement is
    rejected with, the handler issues that one statement and no other,
    logs the error on the console, sends one response, 500 with the
    body [{error: 'Database error'}] in which the error does not occur,
    and returns normally; link and storage are as before. *)
Theorem storage_error_answers_500
    (op : operation) (req : request) (w : world) (e : pg_error) :
  rejection (statement_of op req) w = Some e →
  handler op req w
  = (Returned tt,
     World (link w) (storage w)
       (trace w ++ [Query (statement_of op req).1 (statement_of op req).2;
                    ConsoleError None e;
                    Send 500 (BError "Database error")])) ∧
  replies (handler op req) w = [(500, BError "Database error")] ∧
  statements (events_of (handler op req) w) = [statement_of op req].
Proof.
  intros H. pose proof (handler_rejected op req w e H) as Hrun.
  split; [exact Hrun|].
  unfold replies. rewrite (events_of_app _ _ _ _ _ _ Hrun).
  split; [reflexivity|]. cbn. destruct (statement_of op req); reflexivity.
Qed.

(** ** Ids that are not integers *)

Lemma bad_id_rejected (op : operation) (req : request) (w : world) s e :
  op = GetById ∨ op = UpdateById ∨ op = DeleteById →
  params req !! "id" = Some s →
  int4in s = inl e →
  ∃ e', rejection (statement_of op req) w = Some e'.
Proof.
  intros Hop Hp Hi. unfold rejection.
  destruct (link w) as [e0|]; [eauto|].
  assert (Hb : bind_int4 (JStr s) = inl e)
    by (unfold bind_int4; cbn; rewrite Hi; reflexivity).
  destruct (storage w) as [t|];
    destruct Hop as [-> | [-> | ->]];
    cbn -[bind_int4]; rewrite ?(param_lookup _ _ _ Hp), ?Hb; eauto.
  destruct (bind_int4 (Js.field (reqbody req) "age")); eauto.
Qed.

(** C9.  A Get-by-id, Update-by-id or Delete-by-id whose id path segment
    the engine does not read as an integer of the column's range: the
    segment is handed to the pool as it is, as the last parameter of
    the one statement issued; the statement is rejected and the answer
    is 500 with [{error: 'Database error'}], not 404; link and storage
    are as before. *)
Theorem non_integer_id_answers_500
    (op : operation) (req : request) (w : world) s e :
  op = GetById ∨ op = UpdateById ∨ op = DeleteById →
  params req !! "id" = Some s →
  int4in s = inl e →
  ∃ e' ps,
    (statement_of op req).2 = ps ++ [JStr s] ∧
    rejection (statement_of op req) w = Some e' ∧
    handler op req w
    = (Returned tt,
       World (link w) (storage w)
         (trace w ++ [Query (statement_of op req).1 (ps ++ [JStr s]);
                      ConsoleError None e';
                      Send 500 (BError "Database error")])) ∧
    replies (handler op req) w = [(500, BError "Database error")].
Proof.
  intros Hop Hp Hi.
  destruct (bad_id_rejected op req w s e Hop Hp Hi) as [e' He'].
  pose proof (handler_rejected op req w e' He') as Hrun.
  assert (Hps : ∃ ps, (statement_of op req).2 = ps ++ [JStr s]).
  { destruct Hop as [-> | [-> | ->]]; cbn; rewrite (param_lookup _ _ _ Hp).
    - exists []. reflexivity.
    - eexists [_; _; _; _]. reflexivity.
    - exists []. reflexivity. }
  destruct Hps as [ps Hps]. exists e', ps.
  split; [exact Hps|]. split; [exact He'|].
  rewrite <- Hps. split; [exact Hrun|].
  unfold replies. rewrite (events_of_app _ _ _ _ _ _ Hrun). reflexivity.
Qed.

(** ** What a create reads *)

Lemma field_agree (b b' : gmap string jsval) (k : string) :
  b' !! k = b !! k → Js.field b' k = Js.field b k.
Proof. intros H. unfold Js.field. rewrite H. reflexivity. Qed.

(** C10.  Two create requests whose bodies agree on [name], [age],
    [course] and [gender] run alike, whatever else the bodies (an [id],
    any other field) or the path parameters hold: same statement, same
    response, same storage afterwards.  And whenever a create answers
    201 with a record, the record's [id] is the value the storage's
    sequence held. *)
Theorem create_reads_only_four_fields (req req' : request) (w : world) :
  (∀ k, k ∈ ["name"; "age"; "course"; "gender"] →
        reqbody req' !! k = reqbody req !! k) →
  post_students req' w = post_students req w ∧
  ∀ t r, storage w = Some t →
         (201, BRecord r) ∈ replies (post_students req') w →
         id r = seq t.
Proof.
  intros Hagree.
  assert (Hn := field_agree _ _ "name" (Hagree "name" ltac:(repeat constructor))).
  assert (Ha := field_agree _ _ "age" (Hagree "age" ltac:(repeat constructor))).
  assert (Hc := field_agree _ _ "course" (Hagree "course" ltac:(repeat constructor))).
  assert (Hg := field_agree _ _ "gender" (Hagree "gender" ltac:(repeat constructor))).
  split.
  - unfold post_students. rewrite Hn, Ha, Hc, Hg. reflexivity.
  - intros t r Hs. unfold replies.
    destruct (rejection (statement_of Create req') w) as [e|] eqn:Hrej.
    + change (post_students req') with (handler Create req').
      rewrite (events_of_app _ _ _ _ _ _ (handler_rejected Create _ _ _ Hrej)).
      cbn. rewrite list_elem_of_singleton. discriminate.
    + destruct (post_students_resolved req' w Hrej)
        as (t' & r' & Hs' & Hid & _ & _ & _ & _ & _ & _ & Hpost).
      rewrite (events_of_app _ _ _ _ _ _ Hpost). cbn.
      rewrite list_elem_of_singleton. intros [= ->]. congruence.
Qed.

(** ** Startup *)

Lemma createStudentTable_run (w : world) :
  DbInit.createStudentTable w
  = match link w with
    | None =>
        (Returned tt,
         World None
           (Some (default (Table (Ddl 100 100 10) [] 1) (storage w)))
           (trace w ++ [Query DbInit.query [];
                        ConsoleLog "Students table created successfully or already exists."]))
    | Some e =>
        (Returned tt,
         World (Some e) (storage w)
           (trace w ++ [Query DbInit.query [];
                        ConsoleError (Some "Error creating students table:") e]))
    end.
Proof.
  unfold DbInit.createStudentTable, try_catch, bind, pool_query.
  destruct (link w) as [e|] eqn:Hl.
  - unfold console_error, emit. cbn. rewrite <- app_assoc. reflexivity.
  - destruct (storage w) as [t|]; cbn;
      unfold console_log, emit; cbn; rewrite <- app_assoc; reflexivity.
Qed.

(** C8.  [initialize] first awaits the create-if-absent statement, then
    calls [listen]: in the trace the statement and the console line
    about its outcome come before the [listen] on port 3000.  When the
    statement succeeds an existing table is left as it is and a missing
    one is created empty.  When it fails the error is logged, the
    storage is as before, [initialize] still returns normally after the
    same [listen], and every request handled afterwards is answered
    (with 500 while the link stays down). *)
Theorem initialize_listens_after_schema (w : world) :
  ∃ outcome_line st',
    Index.initialize w
    = (Returned tt,
       World (link w) st'
         (trace w ++ [Query (CREATE_TABLE_IF_NOT_EXISTS (Ddl 100 100 10)) [];
                      outcome_line;
                      Listen 3000;
                      ConsoleLog "Server is running on http://localhost:3000";
                      ConsoleLog "Swagger docs available at http://localhost:3000/api-docs"])) ∧
    ((link w = None ∧
      outcome_line
      = ConsoleLog "Students table created successfully or already exists." ∧
      st' = Some (default (Table (Ddl 100 100 10) [] 1) (storage w)) ∧
      (∀ t, storage w = Some t → st' = Some t))
     ∨
     (∃ e, link w = Some e ∧
      outcome_line = ConsoleError (Some "Error creating students table:") e ∧
      st' = storage w ∧
      ∀ op req, replies (handler op req) (Index.initialize w).2
                = [(500, BError "Database error")])).
Proof.
  assert (Hrun : Index.initialize w
    = (let '(o, w1) := DbInit.createStudentTable w in
       (Returned tt,
        World (link w1) (storage w1)
          (trace w1 ++ [Listen 3000;
                        ConsoleLog "Server is running on http://localhost:3000";
                        ConsoleLog "Swagger docs available at http://localhost:3000/api-docs"])))).
  { unfold Index.initialize, bind. rewrite createStudentTable_run.
    destruct (link w); unfold console_log, emit; cbn;
      rewrite <- !app_assoc; reflexivity. }
  assert (H500 : ∀ w2 e, link w2 = Some e →
            ∀ op req, replies (handler op req) w2
                      = [(500, BError "Database error")]).
  { intros w2 e Hl2 op req. unfold replies.
    erewrite events_of_app;
      [|apply handler_rejected; unfold rejection; rewrite Hl2; reflexivity].
    reflexivity. }
  rewrite createStudentTable_run in Hrun.
  destruct (link w) as [e|] eqn:Hl; cbn in Hrun;
    rewrite <- app_assoc in Hrun; rewrite Hrun; eexists _, _;
    (split; [reflexivity|]).
  - right. exists e. do 3 (split; [reflexivity|]).
    apply (H500 _ e). reflexivity.
  - left. do 3 (split; [reflexivity|]). intros t ->. reflexivity.
Qed.

(** ** Ids are never handed out twice *)

Lemma update_rows_ids d n vn va vc vg l ret kept :
  update_rows d n vn va vc vg l = inr (ret, kept) →
  id <$> kept = id <$> l.
Proof.
  revert ret kept. induction l as [|r l IH]; intros ret kept.
  - intros [= <- <-]. reflexivity.
  - cbn [update_rows]. destruct (decide (id r = n)) as [E|E].
    + destruct (checked_row _ _ _ _ _ _) as [e|r'] eqn:Hc; [discriminate|].
      destruct (update_rows _ _ _ _ _ _ l) as [e|[ret' kept']];
        [discriminate|].
      intros [= <- <-]. apply checked_row_inr in Hc as [Hid _].
      rewrite !fmap_cons, Hid. f_equal. eapply IH. reflexivity.
    + destruct (update_rows _ _ _ _ _ _ l) as [e|[ret' kept']];
        [discriminate|].
      intros [= <- <-]. rewrite !fmap_cons. f_equal. eapply IH. reflexivity.
Qed.

Lemma exec_well_formed q ps t rs t' :
  well_formed t →
  exec q ps (Some t) = inr (rs, Some t') →
  well_formed t'.
Proof.
  intros Hwf He.
  destruct q; destruct ps as [|p1 [|p2 [|p3 [|p4 [|p5 [|p6 ps]]]]]];
    cbn -[bind_int4] in He; try discriminate.
  - injection He as <- <-. exact Hwf.
  - apply exec_insert_inr in He as (r & a & _ & _ & Hc & _ & _ & [= ->]).
    apply checked_row_inr in Hc as [Hid _].
    intros i. unfold ids. cbn. rewrite fmap_app, elem_of_app. cbn.
    rewrite list_elem_of_singleton. intros [Hi | ->].
    + specialize (Hwf i Hi). lia.
    + lia.
  - injection He as <- <-. exact Hwf.
  - destruct (is_int_column c).
    + destruct (bind_int4 p1) as [e|[n|]]; [discriminate| |];
        injection He as <- <-; exact Hwf.
    + destruct (prepareValue p1); injection He as <- <-; exact Hwf.
  - destruct (bind_int4 p2) as [e|a]; [discriminate|].
    destruct (bind_int4 p5) as [e|[n|]]; [discriminate| |].
    + destruct (update_rows _ _ _ _ _ _ _) as [e|[ret kept]] eqn:Hu;
        [discriminate|].
      injection He as <- <-. apply update_rows_ids in Hu.
      intros i. unfold ids. cbn. rewrite Hu. apply Hwf.
    + injection He as <- <-. exact Hwf.
  - destruct (bind_int4 p1) as [e|[n|]]; [discriminate| |].
    + injection He as <- <-. intros i. unfold ids. cbn.
      intros Hi. apply list_elem_of_fmap in Hi as (r & -> & Hr).
      apply list_elem_of_filter in Hr as [_ Hr].
      apply Hwf. unfold ids. apply list_elem_of_fmap. eauto.
    + injection He as <- <-. exact Hwf.
Qed.

(** A create is not rejected when the storage answers, the sequence
    holds a fresh value of the column's range and the body carries four
    values the columns accept. *)
Lemma create_accepted_not_rejected (req : request) (w : world) t nm ag co ge :
  serving w t →
  int4_min <= seq t <= int4_max →
  well_formed t →
  accepted (widths t) (reqbody req) nm ag co ge →
  rejection (statement_of Create req) w = None.
Proof.
  intros [Hl Hs] Hr Hwf (Hn & Hnl & Ha & Hc & Hcl & Hg & Hgl).
  unfold rejection. rewrite Hl, Hs. cbn -[bind_int4].
  rewrite Ha, Hn, Hc, Hg, bool_decide_eq_true_2 by exact Hr.
  rewrite checked_row_accepted by assumption.
  rewrite decide_False; [reflexivity|].
  intros Hin. specialize (Hwf _ Hin). lia.
Qed.

(** ** The properties at concrete requests *)

Ltac by_computation := vm_compute; reflexivity.
Ltac by_decision := apply (bool_decide_unpack _); vm_compute; exact I.

(** The scenario of the specification: on the table as created, a POST
    of Ann is answered 201 with id 1, and GET /students/1 then answers
    200 with the same record. *)
Lemma create_then_get_by_id_witness :
  rejection (statement_of Create ann_request) started = None ∧
  ∃ r w1,
    post_students ann_request started = (Returned tt, w1) ∧
    responses (trace w1) = [(201, BRecord r)] ∧
    r = Student 1 "Ann" 20 "CS" "female" ∧
    replies (get_student_by_id (req_with "id" "1" ∅)) w1
    = [(200, BRecord r)].
Proof.
  assert (H : rejection (statement_of Create ann_request) started = None)
    by by_computation.
  split; [exact H|].
  destruct (create_then_get_by_id ann_request started H)
    as (t & r & Hs & Hid & _ & _ & Hn & Ha & Hc & Hg & Hpost & Hget).
  injection Hs as <-.
  assert (Hr : r = Student 1 "Ann" 20 "CS" "female").
  { destruct r as [i n a c g]. cbn in Hid, Hn, Ha, Hc, Hg.
    injection Hn as <-. injection Hc as <-. injection Hg as <-.
    vm_compute in Ha. injection Ha as <-. rewrite Hid. reflexivity. }
  subst r.
  pose proof (Hget (req_with "id" "1" ∅) eq_refl) as Hget1.
  eexists _, _. split; [exact Hpost|]. split; [reflexivity|].
  split; [reflexivity|].
  unfold replies. rewrite (events_of_app _ _ _ _ _ _ Hget1). reflexivity.
Defined.

Lemma bea_accepted :
  accepted (Ddl 100 100 10) bea_body "Bea" 23 "Physics" "female".
Proof. repeat split; try by_computation; cbn; lia. Defined.

(** PUT /students/2 with Bea's four fields replaces Bob's row and
    answers 200; PUT /students/9 answers 404 and changes nothing. *)
Lemma update_by_id_replaces_or_404_witness :
  put_student_by_id (Request {[ "id" := "2" ]} bea_body) demo_world
  = (Returned tt,
     World None
       (Some (Table (Ddl 100 100 10)
                [Student 1 "Ann" 20 "CS" "female";
                 Student 2 "Bea" 23 "Physics" "female";
                 Student 4 "Ann" 31 "Math" "female"] 5))
       [Query UPDATE_WHERE_ID_RETURNING
          [JStr "Bea"; JNum 23; JStr "Physics"; JStr "female"; JStr "2"];
        Send 200 (BRecord (Student 2 "Bea" 23 "Physics" "female"))]) ∧
  replies (put_student_by_id (Request {[ "id" := "9" ]} bea_body)) demo_world
  = [(404, BError "Student not found")].
Proof.
  split.
  - refine (proj1 (proj1 (update_by_id_replaces_or_404
        (Request {[ "id" := "2" ]} bea_body) demo_world demo_table "2" 2
        "Bea" 23 "Physics" "female" _ _ _ _) _)).
    + split; reflexivity.
    + by_computation.
    + by_computation.
    + exact bea_accepted.
    + by_decision.
  - unfold replies. erewrite events_of_app.
    2: { refine (proj2 (update_by_id_replaces_or_404
           (Request {[ "id" := "9" ]} bea_body) demo_world demo_table "9" 9
           "Bea" 23 "Physics" "female" _ _ _ _) _).
         + split; reflexivity.
         + by_computation.
         + by_computation.
         + exact bea_accepted.
         + by_decision. }
    reflexivity.
Defined.

(** A PUT that carries only [name]: row 1 exists, and the answer is 500
    with the table as it was, neither 200 nor a replaced row. *)
Lemma update_by_id_partial_body_500 :
  1 ∈ ids demo_table ∧
  put_student_by_id
    (Request {[ "id" := "1" ]} {[ "name" := JStr "Anna" ]}) demo_world
  = (Returned tt,
     World None (Some demo_table)
       [Query UPDATE_WHERE_ID_RETURNING
          [JStr "Anna"; JUndefined; JUndefined; JUndefined; JStr "1"];
        ConsoleError None (NotNullViolation Cage);
        Send 500 (BError "Database error")]).
Proof. split; [by_decision | by_computation]. Qed.

(** DELETE /students/2 removes Bob's row and answers 200, after which
    GET /students/2 answers 404; DELETE /students/9 answers 404. *)
Lemma delete_by_id_removes_or_404_witness :
  delete_student_by_id (req_with "id" "2" ∅) demo_world
  = (Returned tt,
     World None
       (Some (Table (Ddl 100 100 10)
                [Student 1 "Ann" 20 "CS" "female";
                 Student 4 "Ann" 31 "Math" "female"] 5))
       [Query DELETE_WHERE_ID_RETURNING [JStr "2"];
        Send 200 (BMessage "Student deleted successfully")]) ∧
  replies (delete_student_by_id (req_with "id" "9" ∅)) demo_world
  = [(404, BError "Student not found")].
Proof.
  split.
  - refine (proj1 (proj1 (delete_by_id_removes_or_404
        (req_with "id" "2" ∅) demo_world demo_table "2" 2 _ _ _) _)).
    + split; reflexivity.
    + by_computation.
    + by_computation.
    + by_decision.
  - unfold replies. erewrite events_of_app.
    2: { refine (proj2 (delete_by_id_removes_or_404
           (req_with "id" "9" ∅) demo_world demo_table "9" 9 _ _ _) _).
         + split; reflexivity.
         + by_computation.
         + by_computation.
         + by_decision. }
    reflexivity.
Defined.

(** DELETE /students/seven: no row has such an id, and the answer is
    500, not 404. *)
Lemma delete_by_id_non_integer_500 :
  (∀ r, r ∈ rows demo_table → Js.toString (id r) ≠ "seven") ∧
  delete_student_by_id (req_with "id" "seven" ∅) demo_world
  = (Returned tt,
     World None (Some demo_table)
       [Query DELETE_WHERE_ID_RETURNING [JStr "seven"];
        ConsoleError None (InvalidTextRepresentation "seven");
        Send 500 (BError "Database error")]).
Proof.
  split; [|by_computation].
  intros r Hr. cbn in Hr.
  repeat (apply elem_of_cons in Hr as [->|Hr]; [by_decision|]).
  inversion Hr.
Qed.

(** GET /students/2 answers 200 with Bob's row; GET /students/9 answers
    404. *)
Lemma get_by_id_404_iff_no_row_witness :
  (∃ b, replies (get_student_by_id (req_with "id" "2" ∅)) demo_world
        = [(200, b)]) ∧
  (∃ b, replies (get_student_by_id (req_with "id" "9" ∅)) demo_world
        = [(404, b)]).
Proof.
  split.
  - destruct (get_by_id_404_iff_no_row
        (req_with "id" "2" ∅) demo_world demo_table "2" 2)
      as (status & b & Hrun & _ & _ & H200).
    + split; reflexivity.
    + by_computation.
    + by_computation.
    + destruct H200 as [-> _]; [by_decision|].
      exists b. unfold replies.
      rewrite (events_of_app _ _ _ _ _ _ Hrun). reflexivity.
  - destruct (get_by_id_404_iff_no_row
        (req_with "id" "9" ∅) demo_world demo_table "9" 9)
      as (status & b & Hrun & [_ H404] & _ & _).
    + split; reflexivity.
    + by_computation.
    + by_computation.
    + rewrite H404 in Hrun by by_decision.
      exists b. unfold replies.
      rewrite (events_of_app _ _ _ _ _ _ Hrun). reflexivity.
Defined.

(** GET /students/abc: no row has such an id, and the answer is 500,
    neither 404 nor 200. *)
Lemma get_by_id_non_integer_500 :
  (∀ r, r ∈ rows demo_table → Js.toString (id r) ≠ "abc") ∧
  get_student_by_id (req_with "id" "abc" ∅) demo_world
  = (Returned tt,
     World None (Some demo_table)
       [Query (SELECT_WHERE Cid) [JStr "abc"];
        ConsoleError None (InvalidTextRepresentation "abc");
        Send 500 (BError "Database error")]).
Proof.
  split; [|by_computation].
  intros r Hr. cbn in Hr.
  repeat (apply elem_of_cons in Hr as [->|Hr]; [by_decision|]).
  inversion Hr.
Qed.

(** GET /students/gender/female lists rows 1 and 4; .../gender/Female,
    which differs in case, and .../course/Law list nothing, with 200. *)
Lemma list_by_gender_and_course_exact_witness :
  replies (get_students_by_gender (req_with "gender" "female" ∅)) demo_world
  = [(200, BList [Student 1 "Ann" 20 "CS" "female";
                  Student 4 "Ann" 31 "Math" "female"])] ∧
  replies (get_students_by_gender (req_with "gender" "Female" ∅)) demo_world
  = [(200, BList [])] ∧
  replies (get_students_by_course (req_with "course" "Law" ∅)) demo_world
  = [(200, BList [])].
Proof.
  assert (Hsv : serving demo_world demo_table) by (split; reflexivity).
  split; [|split]; unfold replies.
  - destruct (proj1 (list_by_gender_and_course_exact
        (req_with "gender" "female" ∅) demo_world demo_table Hsv)
        "female" eq_refl) as (Hrun & _ & _).
    rewrite (events_of_app _ _ _ _ _ _ Hrun). by_computation.
  - destruct (proj1 (list_by_gender_and_course_exact
        (req_with "gender" "Female" ∅) demo_world demo_table Hsv)
        "Female" eq_refl) as (Hrun & _ & _).
    rewrite (events_of_app _ _ _ _ _ _ Hrun). by_computation.
  - destruct (proj2 (list_by_gender_and_course_exact
        (req_with "course" "Law" ∅) demo_world demo_table Hsv)
        "Law" eq_refl) as (Hrun & _ & _).
    rewrite (events_of_app _ _ _ _ _ _ Hrun). by_computation.
Defined.

(** GET /students/name/Ann, a name two rows share, answers 200 with a
    row named Ann; GET /students/name/Zoe answers 404. *)
Lemma get_by_name_one_of_the_matches_witness :
  (∃ r, r ∈ rows demo_table ∧ name r = "Ann" ∧
        replies (get_student_by_name (req_with "name" "Ann" ∅)) demo_world
        = [(200, BRecord r)]) ∧
  replies (get_student_by_name (req_with "name" "Zoe" ∅)) demo_world
  = [(404, BError "Student not found")].
Proof.
  assert (Hsv : serving demo_world demo_table) by (split; reflexivity).
  split.
  - destruct (proj1 (get_by_name_one_of_the_matches
        (req_with "name" "Ann" ∅) demo_world demo_table "Ann" Hsv eq_refl))
      as (r & _ & Hr & Hn & Hrun).
    + vm_compute. lia.
    + exists r. split; [exact Hr|]. split; [exact Hn|].
      unfold replies. rewrite (events_of_app _ _ _ _ _ _ Hrun). reflexivity.
  - pose proof (proj2 (get_by_name_one_of_the_matches
        (req_with "name" "Zoe" ∅) demo_world demo_table "Zoe" Hsv eq_refl)
        eq_refl) as Hrun.
    unfold replies. rewrite (events_of_app _ _ _ _ _ _ Hrun). reflexivity.
Defined.

(** With the link down, GET /students answers 500; with the link up, a
    POST without [name] is refused by the NOT NULL column and answers
    500 as well. *)
Lemma storage_error_answers_500_witness :
  replies (handler List (Request ∅ ∅))
    (fresh (Some (ConnectionFailure "ECONNREFUSED")) (Some demo_table))
  = [(500, BError "Database error")] ∧
  replies (handler Create (Request ∅ {[ "age" := JNum 20 ]})) demo_world
  = [(500, BError "Database error")].
Proof.
  split.
  - refine (proj1 (proj2 (storage_error_answers_500 List (Request ∅ ∅)
        (fresh (Some (ConnectionFailure "ECONNREFUSED")) (Some demo_table))
        (ConnectionFailure "ECONNREFUSED") _))).
    by_computation.
  - refine (proj1 (proj2 (storage_error_answers_500 Create
        (Request ∅ {[ "age" := JNum 20 ]}) demo_world
        (NotNullViolation Cname) _))).
    by_computation.
Defined.

(** GET, PUT and DELETE on /students/abc all answer 500. *)
Lemma non_integer_id_answers_500_witness :
  replies (handler GetById (req_with "id" "abc" ∅)) demo_world
  = [(500, BError "Database error")] ∧
  replies (handler UpdateById (req_with "id" "abc" bea_body)) demo_world
  = [(500, BError "Database error")] ∧
  replies (handler DeleteById (req_with "id" "abc" ∅)) demo_world
  = [(500, BError "Database error")].
Proof.
  assert (Hi : int4in "abc" = inl (InvalidTextRepresentation "abc"))
    by by_computation.
  split; [|split].
  - destruct (non_integer_id_answers_500 GetById (req_with "id" "abc" ∅)
        demo_world "abc" _ (or_introl eq_refl) eq_refl Hi)
      as (e' & ps & _ & _ & _ & H). exact H.
  - destruct (non_integer_id_answers_500 UpdateById
        (req_with "id" "abc" bea_body)
        demo_world "abc" _ (or_intror (or_introl eq_refl)) eq_refl Hi)
      as (e' & ps & _ & _ & _ & H). exact H.
  - destruct (non_integer_id_answers_500 DeleteById (req_with "id" "abc" ∅)
        demo_world "abc" _ (or_intror (or_intror eq_refl)) eq_refl Hi)
      as (e' & ps & _ & _ & _ & H). exact H.
Defined.

(** A POST of Ann that also carries [id: 99] and [admin: true] runs as
    the POST of Ann alone, and the record sent back has the sequence
    value 5 as its id. *)
Lemma create_reads_only_four_fields_witness :
  let req' :=
    Request ∅ (<["id" := JNum 99]> (<["admin" := JBool true]>
                 (reqbody ann_request))) in
  post_students req' demo_world = post_students ann_request demo_world ∧
  ∀ r, (201, BRecord r) ∈ replies (post_students req') demo_world →
       id r = 5.
Proof.
  intros req'.
  destruct (create_reads_only_four_fields ann_request req' demo_world)
    as [Hsame Hid].
  - intros k Hk. cbn in Hk.
    repeat (apply elem_of_cons in Hk as [->|Hk]; [by_computation|]).
    inversion Hk.
  - split; [exact Hsame|]. intros r Hr. exact (Hid demo_table r eq_refl Hr).
Defined.

(** * Further properties of the handlers *)

(** ** Every handler, on every statement outcome *)

Lemma handler_resolved op req w rs st' :
  link w = None →
  exec (statement_of op req).1 (statement_of op req).2 (storage w)
  = inr (rs, st') →
  handler op req w
  = (Returned tt,
     World None st'
       (trace w ++ [Query (statement_of op req).1 (statement_of op req).2;
                    Send (answer op rs).1 (answer op rs).2])).
Proof.
  intros Hl He.
  destruct op; cbn [statement_of fst snd] in He; cbn [handler];
    match goal with |- ?h req w = _ => unfold h end;
    resolve_query He; cbn [answer statement_of fst snd];
    try case_decide; send_reply.
Qed.

Lemma rejection_cases s w :
  (∃ e, rejection s w = Some e) ∨
  (link w = None ∧ ∃ rs st', exec s.1 s.2 (storage w) = inr (rs, st')).
Proof.
  destruct (rejection s w) as [e|] eqn:H; [eauto|].
  right. apply not_rejected_resolved, H.
Qed.

Lemma answer_documented op rs : (answer op rs).1 ∈ documented op.
Proof.
  destruct op; cbn; try case_decide; cbn;
    repeat first [apply list_elem_of_here | apply list_elem_of_further].
Qed.

(** X1.  Whatever the request and the world, a handler returns normally,
    leaves the link as it was, only appends to the trace, issues exactly
    the one statement of its route and sends exactly one response, whose
    status is one of those the route documents. *)
Theorem every_handler_answers_once
    (op : operation) (req : request) (w : world) :
  ∃ evs status b,
    (handler op req w).1 = Returned tt ∧
    link (after (handler op req) w) = link w ∧
    trace (after (handler op req) w) = trace w ++ evs ∧
    statements evs = [statement_of op req] ∧
    responses evs = [(status, b)] ∧
    status ∈ documented op.
Proof.
  unfold after.
  destruct (rejection_cases (statement_of op req) w)
    as [[e He] | (Hl & rs & st' & He)].
  - rewrite (handler_rejected _ _ _ _ He).
    eexists _, 500, _. cbn.
    do 3 (split; [reflexivity|]).
    split; [destruct (statement_of op req); reflexivity|].
    split; [reflexivity|].
    destruct op; cbn;
      repeat first [apply list_elem_of_here | apply list_elem_of_further].
  - rewrite (handler_resolved _ _ _ _ _ Hl He).
    eexists _, _, _. cbn. split; [reflexivity|].
    split; [symmetry; exact Hl|]. split; [reflexivity|].
    split; [destruct (statement_of op req); reflexivity|].
    split; [reflexivity|]. apply answer_documented.
Qed.

(** ** What a statement can do to the table *)

Lemma update_rows_nil d n vn va vc vg l kept :
  update_rows d n vn va vc vg l = inr ([], kept) → kept = l.
Proof.
  revert kept. induction l as [|r l IH]; intros kept.
  - intros [= <-]. reflexivity.
  - cbn [update_rows]. destruct (decide (id r = n)) as [E|E].
    + destruct (checked_row _ _ _ _ _ _) as [e|r']; [discriminate|].
      destruct (update_rows _ _ _ _ _ _ l) as [e|[ret' kept']];
        discriminate.
    + destruct (update_rows _ _ _ _ _ _ l) as [e|[ret' kept']];
        [discriminate|].
      intros [= -> <-]. f_equal. apply IH. reflexivity.
Qed.

Lemma filter_eq_nil_ne (n : Z) (l : list student) :
  filter (λ r, id r = n) l = [] → filter (λ r, id r ≠ n) l = l.
Proof.
  induction l as [|r l IH]; [reflexivity|].
  destruct (decide (id r = n)) as [E|E].
  - rewrite filter_cons_True by exact E. discriminate.
  - rewrite filter_cons_False by exact E. intros H.
    rewrite filter_cons_True by exact E. f_equal. auto.
Qed.

Lemma table_eta t : Table (widths t) (rows t) (seq t) = t.
Proof. destruct t; reflexivity. Qed.

Lemma NoDup_ids_filter (P : student → Prop) `{!∀ r, Decision (P r)}
    (l : list student) :
  NoDup (id <$> l) → NoDup (id <$> filter P l).
Proof.
  induction l as [|r l IH]; [intros; constructor|].
  rewrite fmap_cons, NoDup_cons. intros [Hr Hl].
  destruct (decide (P r)) as [HP|HP].
  - rewrite filter_cons_True by exact HP. rewrite fmap_cons, NoDup_cons.
    split; [|auto]. intros Hin. apply Hr.
    apply list_elem_of_fmap in Hin as (r' & -> & Hr').
    apply list_elem_of_filter in Hr' as [_ Hr'].
    apply list_elem_of_fmap. eauto.
  - rewrite filter_cons_False by exact HP. auto.
Qed.

(** A statement of a handler that resolves keeps the relation, its
    definition, and both invariants; the sequence does not go back. *)
Lemma exec_keeps_table q ps t rs st' :
  exec q ps (Some t) = inr (rs, st') →
  ∃ t', st' = Some t' ∧ widths t' = widths t ∧ seq t <= seq t' ∧
        (well_formed t → well_formed t') ∧
        (unique_ids t → unique_ids t').
Proof.
  intros He.
  assert (Hsame : st' = Some t →
    ∃ t', st' = Some t' ∧ widths t' = widths t ∧ seq t <= seq t' ∧
          (well_formed t → well_formed t') ∧ (unique_ids t → unique_ids t')).
  { intros ->. exists t. split; [reflexivity|]. split; [reflexivity|].
    split; [lia|]. auto. }
  destruct q; destruct ps as [|p1 [|p2 [|p3 [|p4 [|p5 [|p6 ps]]]]]];
    cbn -[bind_int4] in He; try discriminate.
  - injection He as <- <-. auto.
  - apply exec_insert_inr in He as (r & a & _ & _ & Hc & Hf & _ & ->).
    apply checked_row_inr in Hc as [Hid _].
    eexists. split; [reflexivity|]. cbn. split; [reflexivity|].
    split; [lia|]. split.
    + intros Hwf i. unfold ids. cbn. rewrite fmap_app, elem_of_app. cbn.
      rewrite list_elem_of_singleton. intros [Hi | ->].
      * specialize (Hwf i Hi). lia.
      * lia.
    + unfold unique_ids, ids. cbn. intros Hnd. rewrite fmap_app. cbn.
      apply NoDup_app. split; [exact Hnd|]. split.
      * intros i Hi. rewrite list_elem_of_singleton. intros ->.
        apply Hf. rewrite <- Hid. exact Hi.
      * apply NoDup_singleton.
  - injection He as <- <-. auto.
  - destruct (is_int_column c).
    + destruct (bind_int4 p1) as [e|[n|]]; [discriminate| |];
        injection He as <- <-; auto.
    + destruct (prepareValue p1); injection He as <- <-; auto.
  - destruct (bind_int4 p2) as [e|a]; [discriminate|].
    destruct (bind_int4 p5) as [e|[n|]]; [discriminate| |].
    + destruct (update_rows _ _ _ _ _ _ _) as [e|[ret kept]] eqn:Hu;
        [discriminate|].
      injection He as <- <-. apply update_rows_ids in Hu.
      eexists. split; [reflexivity|]. cbn. split; [reflexivity|].
      split; [lia|]. unfold well_formed, unique_ids, ids. cbn. rewrite Hu.
      auto.
    + injection He as <- <-. auto.
  - destruct (bind_int4 p1) as [e|[n|]]; [discriminate| |].
    + injection He as <- <-.
      eexists. split; [reflexivity|]. cbn. split; [reflexivity|].
      split; [lia|]. split.
      * intros Hwf i. unfold ids. cbn.
        intros Hi. apply list_elem_of_fmap in Hi as (r & -> & Hr).
        apply list_elem_of_filter in Hr as [_ Hr].
        apply Hwf. unfold ids. apply list_elem_of_fmap. eauto.
      * unfold unique_ids, ids. cbn. apply NoDup_ids_filter.
    + injection He as <- <-. auto.
Qed.

(** The statement of a GET route, and any statement that resolves to no
    row, leaves the table as it is. *)
Lemma exec_unchanged op req t rs st' :
  exec (statement_of op req).1 (statement_of op req).2 (Some t)
  = inr (rs, st') →
  is_get op = true ∨ rs = [] →
  st' = Some t.
Proof.
  intros He Hor.
  destruct op; cbn -[bind_int4] in He.
  - apply exec_insert_inr in He as (r & a & _ & _ & _ & _ & -> & _).
    destruct Hor; discriminate.
  - injection He as <- <-. reflexivity.
  - destruct (bind_int4 _) as [e|[n|]]; [discriminate| |];
      injection He as <- <-; reflexivity.
  - destruct (bind_int4 (Js.field _ "age")) as [e|a]; [discriminate|].
    destruct (bind_int4 (param req "id")) as [e|[n|]]; [discriminate| |].
    + destruct (update_rows _ _ _ _ _ _ _) as [e|[ret kept]] eqn:Hu;
        [discriminate|].
      injection He as <- <-. destruct Hor as [? | ->]; [discriminate|].
      apply update_rows_nil in Hu as ->. rewrite table_eta. reflexivity.
    + injection He as <- <-. reflexivity.
  - destruct (bind_int4 _) as [e|[n|]]; [discriminate| |].
    + injection He as <- <-. destruct Hor as [? | Hnil]; [discriminate|].
      rewrite (filter_eq_nil_ne _ _ Hnil), table_eta. reflexivity.
    + injection He as <- <-. reflexivity.
  - destruct (prepareValue _); injection He as <- <-; reflexivity.
  - destruct (prepareValue _); injection He as <- <-; reflexivity.
  - destruct (prepareValue _); injection He as <- <-; reflexivity.
Qed.

Lemma exec_absent op req :
  exec (statement_of op req).1 (statement_of op req).2 None
  = inl UndefinedTable.
Proof. destruct op; reflexivity. Qed.

Lemma replies_rejected op req w e :
  rejection (statement_of op req) w = Some e →
  replies (handler op req) w = [(500, BError "Database error")] ∧
  storage (after (handler op req) w) = storage w.
Proof.
  intros He. pose proof (handler_rejected _ _ _ _ He) as Hrun.
  unfold replies, after. rewrite (events_of_app _ _ _ _ _ _ Hrun), Hrun.
  split; reflexivity.
Qed.

Lemma replies_resolved op req w rs st' :
  link w = None →
  exec (statement_of op req).1 (statement_of op req).2 (storage w)
  = inr (rs, st') →
  replies (handler op req) w = [answer op rs] ∧
  storage (after (handler op req) w) = st'.
Proof.
  intros Hl He. pose proof (handler_resolved _ _ _ _ _ Hl He) as Hrun.
  unfold replies, after. rewrite (events_of_app _ _ _ _ _ _ Hrun), Hrun.
  cbn. destruct (answer op rs). split; reflexivity.
Qed.

Lemma handler_link op req w :
  link (after (handler op req) w) = link w.
Proof.
  unfold after.
  destruct (rejection_cases (statement_of op req) w)
    as [[e He] | (Hl & rs & st' & He)].
  - rewrite (handler_rejected _ _ _ _ He). reflexivity.
  - rewrite (handler_resolved _ _ _ _ _ Hl He). symmetry. exact Hl.
Qed.

(** ** What the handlers leave alone *)

(** X2.  The five GET routes never change the storage, whatever the
    request and whatever the statement's outcome. *)
Theorem get_routes_keep_storage
    (op : operation) (req : request) (w : world) :
  is_get op = true →
  storage (after (handler op req) w) = storage w.
Proof.
  intros Hget.
  destruct (rejection_cases (statement_of op req) w)
    as [[e He] | (Hl & rs & st' & He)].
  - apply (replies_rejected _ _ _ _ He).
  - rewrite (proj2 (replies_resolved _ _ _ _ _ Hl He)).
    destruct (storage w) as [t|] eqn:Hs.
    + apply (exec_unchanged _ _ _ _ _ He). left. exact Hget.
    + rewrite exec_absent in He. discriminate.
Qed.


(** X4.  No handler drops or redefines the relation, and every handler
    keeps what the table guarantees: the column widths stay, the
    sequence never goes back, every id stays below the sequence and no
    two rows come to share an id. *)
Theorem handlers_keep_table_invariants
    (op : operation) (req : request) (w : world) (t : table) :
  storage w = Some t →
  ∃ t',
    storage (after (handler op req) w) = Some t' ∧
    widths t' = widths t ∧
    seq t <= seq t' ∧
    (well_formed t → well_formed t') ∧
    (unique_ids t → unique_ids t').
Proof.
  intros Hs.
  destruct (rejection_cases (statement_of op req) w)
    as [[e He] | (Hl & rs & st' & He)].
  - rewrite (proj2 (replies_rejected _ _ _ _ He)), Hs.
    exists t. split; [reflexivity|]. split; [reflexivity|].
    split; [lia|]. auto.
  - rewrite (proj2 (replies_resolved _ _ _ _ _ Hl He)).
    rewrite Hs in He. apply (exec_keeps_table _ _ _ _ _ He).
Qed.

(** X5.  No handler creates the relation: while it does not exist every
    request, of every route, is answered 500 with the generic body and
    the relation still does not exist afterwards. *)
Theorem handlers_never_create_table
    (op : operation) (req : request) (w : world) :
  storage w = None →
  replies (handler op req) w = [(500, BError "Database error")] ∧
  storage (after (handler op req) w) = None.
Proof.
  intros Hs.
  assert (He : ∃ e, rejection (statement_of op req) w = Some e).
  { unfold rejection. destruct (link w); [eauto|].
    rewrite Hs, exec_absent. eauto. }
  destruct He as [e He].
  destruct (replies_rejected _ _ _ _ He) as [Hrep Hst].
  split; [exact Hrep|]. rewrite Hst. exact Hs.
Qed.

(** ** One request after another *)

Lemma get_students_serving req w t :
  serving w t →
  replies (get_students req) w = [(200, BList (rows t))].
Proof.
  intros [Hl Hs].
  refine (proj1 (replies_resolved List req w (rows t) (Some t) Hl _)).
  rewrite Hs. reflexivity.
Qed.

Lemma after_post_students req w t r :
  post_students req w
  = (Returned tt,
     World None (Some (Table (widths t) (rows t ++ [r]) (seq t + 1)))
       (trace w ++ [Query INSERT_RETURNING (statement_of Create req).2;
                    Send 201 (BRecord r)])) →
  replies (post_students req) w = [(201, BRecord r)] ∧
  serving (after (post_students req) w)
          (Table (widths t) (rows t ++ [r]) (seq t + 1)).
Proof.
  intros Hrun. unfold replies, after.
  rewrite (events_of_app _ _ _ _ _ _ Hrun), Hrun.
  split; [reflexivity|]. split; reflexivity.
Qed.


(** X7.  Two creates in a row that the storage does not reject are given
    consecutive ids: the second record's id is the first one's plus
    one. *)
Theorem consecutive_creates_consecutive_ids
    (req1 req2 : request) (w : world) :
  rejection (statement_of Create req1) w = None →
  rejection (statement_of Create req2) (after (post_students req1) w) = None →
  ∃ r1 r2,
    replies (post_students req1) w = [(201, BRecord r1)] ∧
    replies (post_students req2) (after (post_students req1) w)
    = [(201, BRecord r2)] ∧
    id r2 = id r1 + 1.
Proof.
  intros H1 H2.
  destruct (post_students_resolved req1 w H1)
    as (t & r1 & Hs & Hid1 & _ & _ & _ & _ & _ & _ & Hpost1).
  destruct (after_post_students _ _ _ _ Hpost1) as [Hrep1 [_ Hs1]].
  destruct (post_students_resolved req2 _ H2)
    as (t2 & r2 & Hs2 & Hid2 & _ & _ & _ & _ & _ & _ & Hpost2).
  destruct (after_post_students _ _ _ _ Hpost2) as [Hrep2 _].
  exists r1, r2. split; [exact Hrep1|]. split; [exact Hrep2|].
  rewrite Hs1 in Hs2. injection Hs2 as <-. rewrite Hid2, Hid1. reflexivity.
Qed.

(** ** Delete, then *)

Lemma length_filter_ne_unique (n : Z) (l : list student) :
  NoDup (id <$> l) → n ∈ id <$> l →
  S (length (filter (λ r, id r ≠ n) l)) = length l.
Proof.
  induction l as [|r l IH]; [intros _ Hin; inversion Hin|].
  rewrite fmap_cons, NoDup_cons, elem_of_cons. intros [Hr Hl] Hin.
  destruct (decide (id r = n)) as [E|E].
  - rewrite filter_cons_False by (intros Hne; apply Hne, E).
    rewrite filter_ne_absent by (rewrite <- E; exact Hr). reflexivity.
  - rewrite filter_cons_True by exact E. cbn. f_equal. apply IH; [exact Hl|].
    destruct Hin as [Hin|Hin]; [congruence|exact Hin].
Qed.

Lemma delete_replies req w t s n :
  serving w t →
  params req !! "id" = Some s →
  int4in s = inr n →
  replies (delete_student_by_id req) w
  = [answer DeleteById (filter (λ r, id r = n) (rows t))] ∧
  serving (after (delete_student_by_id req) w)
          (Table (widths t) (filter (λ r, id r ≠ n) (rows t)) (seq t)).
Proof.
  intros [Hl Hs] Hp Hi.
  assert (He : exec (statement_of DeleteById req).1
                 (statement_of DeleteById req).2 (storage w)
               = inr (filter (λ r, id r = n) (rows t),
                      Some (Table (widths t)
                              (filter (λ r, id r ≠ n) (rows t)) (seq t)))).
  { cbn [statement_of fst snd]. rewrite (param_lookup _ _ _ Hp), Hs.
    apply exec_delete_id, Hi. }
  destruct (replies_resolved DeleteById req w _ _ Hl He) as [Hrep Hst].
  split; [exact Hrep|]. split; [|exact Hst].
  rewrite <- Hl. apply (handler_link DeleteById).
Qed.

(** X8.  Deleting an id that a row has, on a table whose ids are unique,
    removes exactly one row: the list of all students afterwards is the
    list before without the rows of that id, one row shorter, and no
    other row is touched. *)
Theorem delete_then_list (req : request) (w : world) t s n :
  serving w t →
  params req !! "id" = Some s →
  int4in s = inr n →
  n ∈ ids t →
  unique_ids t →
  let remaining := filter (λ r, id r ≠ n) (rows t) in
  replies (delete_student_by_id req) w
  = [(200, BMessage "Student deleted successfully")] ∧
  S (length remaining) = length (rows t) ∧
  ∀ req',
    replies (get_students req') (after (delete_student_by_id req) w)
    = [(200, BList remaining)].
Proof.
  intros Hsv Hp Hi Hin Hu remaining.
  destruct (delete_replies _ _ _ _ _ Hsv Hp Hi) as [Hrep Hsv'].
  destruct (filter_id_present _ _ Hin) as (r & l' & E & _ & _).
  rewrite E in Hrep. split; [exact Hrep|].
  split; [apply length_filter_ne_unique; assumption|].
  intros req'. apply (get_students_serving req' _ _ Hsv').
Qed.

(** X9.  Deleting the same id a second time is answered 404 and leaves
    the storage as the first delete left it. *)
Theorem delete_twice_is_404 (req : request) (w : world) t s n :
  serving w t →
  params req !! "id" = Some s →
  int4in s = inr n →
  let w1 := after (delete_student_by_id req) w in
  replies (delete_student_by_id req) w1
  = [(404, BError "Student not found")] ∧
  storage (after (delete_student_by_id req) w1) = storage w1.
Proof.
  intros Hsv Hp Hi w1. subst w1.
  destruct (delete_replies _ _ _ _ _ Hsv Hp Hi) as [_ Hsv1].
  destruct (delete_replies _ _ _ _ _ Hsv1 Hp Hi) as [Hrep [_ Hst2]].
  cbn [rows widths seq] in Hrep, Hst2.
  rewrite filter_id_absent in Hrep by apply ids_filter_ne.
  split; [exact Hrep|].
  rewrite Hst2, (proj2 Hsv1).
  rewrite filter_ne_absent by apply ids_filter_ne. reflexivity.
Qed.

(** ** Update, then *)

Lemma ids_replaced n new (l : list student) :
  id new = n → id <$> replaced n new l = id <$> l.
Proof.
  intros Hn. unfold replaced. rewrite <- list_fmap_compose.
  apply list_fmap_ext. intros i r _. cbn.
  destruct (decide (id r = n)); congruence.
Qed.

Lemma filter_replaced n new (l : list student) :
  id new = n →
  filter (λ r, id r = n) (replaced n new l)
  = (λ _, new) <$> filter (λ r, id r = n) l.
Proof.
  intros Hn. induction l as [|r l IH]; [reflexivity|].
  unfold replaced in *. rewrite fmap_cons.
  destruct (decide (id r = n)) as [E|E].
  - rewrite !filter_cons_True by assumption. rewrite fmap_cons, IH.
    reflexivity.
  - rewrite !filter_cons_False by assumption. exact IH.
Qed.

Lemma replaced_twice n new (l : list student) :
  id new = n → replaced n new (replaced n new l) = replaced n new l.
Proof.
  intros Hn. unfold replaced. rewrite <- list_fmap_compose.
  apply list_fmap_ext. intros i r _. cbn.
  destruct (decide (id r = n)) as [E|E].
  - rewrite decide_True by exact Hn. reflexivity.
  - rewrite decide_False by exact E. reflexivity.
Qed.

Lemma put_replies req w t s n nm ag co ge :
  serving w t →
  params req !! "id" = Some s →
  int4in s = inr n →
  accepted (widths t) (reqbody req) nm ag co ge →
  let new := Student n nm ag co ge in
  replies (put_student_by_id req) w
  = [answer UpdateById ((λ _, new) <$> filter (λ r, id r = n) (rows t))] ∧
  serving (after (put_student_by_id req) w)
          (Table (widths t) (replaced n new (rows t)) (seq t)).
Proof.
  intros [Hl Hs] Hp Hi Hacc new.
  pose proof (exec_update_accepted t _ s n nm ag co ge Hi Hacc) as He.
  rewrite <- Hs, <- (param_lookup _ _ _ Hp) in He.
  destruct (replies_resolved UpdateById req w _ _ Hl He) as [Hrep Hst].
  split; [exact Hrep|]. split; [|exact Hst].
  rewrite <- Hl. apply (handler_link UpdateById).
Qed.

Lemma get_replies req w t s n :
  serving w t →
  params req !! "id" = Some s →
  int4in s = inr n →
  replies (get_student_by_id req) w
  = [answer GetById (filter (λ r, id r = n) (rows t))].
Proof.
  intros [Hl Hs] Hp Hi.
  refine (proj1 (replies_resolved GetById req w _ (Some t) Hl _)).
  cbn [statement_of fst snd]. rewrite (param_lookup _ _ _ Hp), Hs.
  apply exec_select_id, Hi.
Qed.

(** X10.  After an update of an existing id with four values the columns
    accept, Get-by-id on that id answers 200 with the record the update
    answered: the same id and the four new values. *)
Theorem update_then_get_by_id
    (req req' : request) (w : world) t s s' n nm ag co ge :
  serving w t →
  params req !! "id" = Some s →
  int4in s = inr n →
  accepted (widths t) (reqbody req) nm ag co ge →
  n ∈ ids t →
  params req' !! "id" = Some s' →
  int4in s' = inr n →
  replies (put_student_by_id req) w
  = [(200, BRecord (Student n nm ag co ge))] ∧
  replies (get_student_by_id req') (after (put_student_by_id req) w)
  = [(200, BRecord (Student n nm ag co ge))].
Proof.
  intros Hsv Hp Hi Hacc Hin Hp' Hi'.
  destruct (put_replies _ _ _ _ _ _ _ _ _ Hsv Hp Hi Hacc) as [Hrep Hsv1].
  destruct (filter_id_present _ _ Hin) as (r & l' & E & _ & _).
  rewrite E in Hrep. split; [exact Hrep|].
  rewrite (get_replies _ _ _ _ _ Hsv1 Hp' Hi'). cbn [rows].
  rewrite filter_replaced by reflexivity. rewrite E. reflexivity.
Qed.

(** X11.  An update the storage accepts is idempotent: sent a second
    time it gets the same answer and leaves the storage as the first
    one left it. *)
Theorem update_twice_same (req : request) (w : world) t s n nm ag co ge :
  serving w t →
  params req !! "id" = Some s →
  int4in s = inr n →
  accepted (widths t) (reqbody req) nm ag co ge →
  let w1 := after (put_student_by_id req) w in
  replies (put_student_by_id req) w1 = replies (put_student_by_id req) w ∧
  storage (after (put_student_by_id req) w1) = storage w1.
Proof.
  intros Hsv Hp Hi Hacc w1. subst w1.
  destruct (put_replies _ _ _ _ _ _ _ _ _ Hsv Hp Hi Hacc) as [Hrep Hsv1].
  destruct (put_replies _ _ _ _ _ _ _ _ _ Hsv1 Hp Hi Hacc) as [Hrep2 Hsv2].
  cbn [rows widths seq] in Hrep2, Hsv2.
  rewrite filter_replaced in Hrep2 by reflexivity.
  rewrite replaced_twice in Hsv2 by reflexivity.
  split.
  - rewrite Hrep, Hrep2.
    destruct (filter _ (rows t)); reflexivity.
  - rewrite (proj2 Hsv2), (proj2 Hsv1). reflexivity.
Qed.

(** ** When a create is accepted *)

Lemma create_not_rejected_iff (req : request) (w : world) :
  rejection (statement_of Create req) w = None ↔
  ∃ t nm ag co ge,
    serving w t ∧ int4_min <= seq t <= int4_max ∧ (seq t ∉ ids t) ∧
    accepted (widths t) (reqbody req) nm ag co ge.
Proof.
  split.
  - intros Hok.
    apply not_rejected_resolved in Hok as (Hl & rs & st' & He).
    cbn [fst snd statement_of] in He.
    destruct (storage w) as [t|] eqn:Hs;
      [|apply exec_undefined_table in He as [d Hd]; discriminate].
    apply exec_insert_inr in He as (r & a & Ha & Hr & Hc & Hf & _ & _).
    apply checked_row_inr in Hc as (_ & Hn & -> & Hco & Hg & Hnl & Hcl & Hgl).
    exists t, (name r), (age r), (course r), (gender r).
    split; [split; [exact Hl|exact Hs]|]. split; [exact Hr|].
    split; [exact Hf|]. repeat split; assumption.
  - intros (t & nm & ag & co & ge & [Hl Hs] & Hr & Hf & Hacc).
    destruct Hacc as (Hn & Hnl & Ha & Hc & Hcl & Hg & Hgl).
    unfold rejection. rewrite Hl, Hs. cbn -[bind_int4].
    rewrite Ha, Hn, Hc, Hg, bool_decide_eq_true_2 by exact Hr.
    rewrite checked_row_accepted by assumption.
    rewrite decide_False by exact Hf. reflexivity.
Qed.

Lemma post_students_accepted (req : request) (w : world) t nm ag co ge :
  serving w t →
  int4_min <= seq t <= int4_max →
  seq t ∉ ids t →
  accepted (widths t) (reqbody req) nm ag co ge →
  replies (post_students req) w
  = [(201, BRecord (Student (seq t) nm ag co ge))] ∧
  serving (after (post_students req) w)
    (Table (widths t) (rows t ++ [Student (seq t) nm ag co ge]) (seq t + 1)).
Proof.
  intros Hsv Hr Hf Hacc.
  assert (Hok : rejection (statement_of Create req) w = None)
    by (apply create_not_rejected_iff; eauto 10).
  destruct (post_students_resolved req w Hok)
    as (t' & r & Hs & Hid & _ & _ & Hn & Ha & Hc & Hg & Hpost).
  destruct Hsv as [Hl Hs']. rewrite Hs' in Hs. injection Hs as <-.
  destruct Hacc as (Hn' & _ & Ha' & Hc' & _ & Hg' & _).
  assert (Hr' : r = Student (seq t) nm ag co ge).
  { destruct r as [i n a c g]. cbn in Hid, Hn, Ha, Hc, Hg. congruence. }
  subst r. apply (after_post_students _ _ _ _ Hpost).
Qed.




(** ** Startup, then requests *)

Lemma after_createStudentTable w :
  (DbInit.createStudentTable w).1 = Returned tt ∧
  link (after DbInit.createStudentTable w) = link w ∧
  storage (after DbInit.createStudentTable w)
  = match link w with
    | None => Some (default (Table (Ddl 100 100 10) [] 1) (storage w))
    | Some _ => storage w
    end.
Proof.
  unfold after. rewrite createStudentTable_run.
  destruct (link w); repeat split; reflexivity.
Qed.

Lemma after_initialize w :
  link (after Index.initialize w) = link w ∧
  storage (after Index.initialize w)
  = storage (after DbInit.createStudentTable w).
Proof.
  unfold after, Index.initialize, bind.
  destruct (after_createStudentTable w) as (Hret & _ & _).
  destruct (DbInit.createStudentTable w) as [o w1] eqn:E.
  cbn in Hret. subst o.
  pose proof (proj1 (proj2 (after_createStudentTable w))) as Hl.
  unfold after in Hl. rewrite E in Hl. cbn in Hl.
  unfold console_log, emit. cbn. split; [exact Hl|reflexivity].
Qed.

(** X14.  [createStudentTable] can be run at every start: it always
    returns normally; it never touches a table that exists, rows
    included; and run a second time it leaves the storage as the first
    run left it. *)
Theorem createStudentTable_idempotent (w : world) :
  (DbInit.createStudentTable w).1 = Returned tt ∧
  (∀ t, storage w = Some t →
        storage (after DbInit.createStudentTable w) = Some t) ∧
  storage (after DbInit.createStudentTable
             (after DbInit.createStudentTable w))
  = storage (after DbInit.createStudentTable w).
Proof.
  destruct (after_createStudentTable w) as (Hret & Hl & Hs).
  destruct (after_createStudentTable (after DbInit.createStudentTable w))
    as (_ & _ & Hs2).
  split; [exact Hret|]. split.
  - intros t Ht. rewrite Hs, Ht. destruct (link w); reflexivity.
  - rewrite Hs2, Hl, Hs. destruct (link w); [reflexivity|].
    destruct (storage w); reflexivity.
Qed.

(** X15.  Started against a reachable database in which the relation
    does not exist yet, the service creates it, and the first create
    with four values the columns of [dbInit.js] accept (name and course
    of at most 100 bytes, gender of at most 10, an integer age) is
    answered 201 with id 1. *)
Theorem initialize_then_first_create
    (req : request) (w : world) nm ag co ge :
  link w = None →
  storage w = None →
  accepted (Ddl 100 100 10) (reqbody req) nm ag co ge →
  replies (post_students req) (after Index.initialize w)
  = [(201, BRecord (Student 1 nm ag co ge))].
Proof.
  intros Hl Hs Hacc.
  destruct (after_initialize w) as [Hl1 Hs1].
  rewrite (proj2 (proj2 (after_createStudentTable w))), Hl, Hs in Hs1.
  cbn in Hs1. rewrite Hl in Hl1.
  refine (proj1 (post_students_accepted req _
            (Table (Ddl 100 100 10) [] 1) nm ag co ge _ _ _ Hacc)).
  - split; assumption.
  - cbn. unfold int4_min, int4_max. lia.
  - unfold ids. cbn. apply not_elem_of_nil.
Qed.

(** ** Every stored row can be found *)

Lemma unique_ids_same_row (l : list student) (r r' : student) :
  NoDup (id <$> l) → r ∈ l → r' ∈ l → id r' = id r → r' = r.
Proof.
  induction l as [|x l IH]; [intros _ Hr; inversion Hr|].
  rewrite fmap_cons, NoDup_cons. intros [Hx Hl] Hr Hr' Hid.
  apply elem_of_cons in Hr as [-> | Hr];
    apply elem_of_cons in Hr' as [-> | Hr']; auto.
  - exfalso. apply Hx. rewrite <- Hid. apply list_elem_of_fmap. eauto.
  - exfalso. apply Hx. rewrite Hid. apply list_elem_of_fmap. eauto.
Qed.

Lemma select_text_replies (op : operation) (c : column) (k : string)
    req w t s :
  statement_of op req = (SELECT_WHERE c, [param req k]) →
  is_int_column c = false →
  serving w t →
  params req !! k = Some s →
  replies (handler op req) w
  = [answer op (filter (λ r, text_column c r = Some s) (rows t))].
Proof.
  intros Hst Hc [Hl Hs] Hp.
  refine (proj1 (replies_resolved op req w _ (Some t) Hl _)).
  rewrite Hst. cbn [fst snd]. rewrite (param_lookup _ _ _ Hp), Hs.
  apply exec_select_text, Hc.
Qed.

(** X16.  A row of the table is found through each of its columns: the
    list for its gender and the list for its course contain it,
    Get-by-name on its name answers 200 with a record of that name, and
    Get-by-id on the decimal text of its id answers 200 with a record
    of that id, which is the row itself when ids are unique. *)
Theorem stored_row_is_found (w : world) (t : table) (r : student) :
  serving w t →
  r ∈ rows t →
  (∀ req, params req !! "gender" = Some (gender r) →
     ∃ l, replies (get_students_by_gender req) w = [(200, BList l)] ∧ r ∈ l) ∧
  (∀ req, params req !! "course" = Some (course r) →
     ∃ l, replies (get_students_by_course req) w = [(200, BList l)] ∧ r ∈ l) ∧
  (∀ req, params req !! "name" = Some (name r) →
     ∃ r', replies (get_student_by_name req) w = [(200, BRecord r')] ∧
           r' ∈ rows t ∧ name r' = name r) ∧
  (int4_min <= id r <= int4_max →
   ∀ req, params req !! "id" = Some (Js.toString (id r)) →
     ∃ r', replies (get_student_by_id req) w = [(200, BRecord r')] ∧
           r' ∈ rows t ∧ id r' = id r ∧ (unique_ids t → r' = r)).
Proof.
  intros Hsv Hr. split; [|split; [|split]].
  - intros req Hp. eexists. split.
    + apply (select_text_replies ListByGender Cgender "gender" req w t _
               eq_refl eq_refl Hsv Hp).
    + apply list_elem_of_filter. split; [reflexivity|exact Hr].
  - intros req Hp. eexists. split.
    + apply (select_text_replies ListByCourse Ccourse "course" req w t _
               eq_refl eq_refl Hsv Hp).
    + apply list_elem_of_filter. split; [reflexivity|exact Hr].
  - intros req Hp.
    pose proof (select_text_replies GetByName Cname "name" req w t _
                  eq_refl eq_refl Hsv Hp) as Hrep.
    assert (Hin : r ∈ filter (λ r0, text_column Cname r0 = Some (name r))
                             (rows t))
      by (apply list_elem_of_filter; split; [reflexivity|exact Hr]).
    destruct (filter _ (rows t)) as [|r' l] eqn:E; [inversion Hin|].
    assert (Hr' : r' ∈ filter (λ r0, text_column Cname r0 = Some (name r))
                              (rows t)) by (rewrite E; left).
    apply list_elem_of_filter in Hr' as [Hn Hr'].
    exists r'. split; [exact Hrep|]. split; [exact Hr'|].
    cbn in Hn. congruence.
  - intros Hrange req Hp.
    pose proof (get_replies req w t _ _ Hsv Hp
                  (int4in_toString _ Hrange)) as Hrep.
    assert (Hin : id r ∈ ids t)
      by (unfold ids; apply list_elem_of_fmap; eauto).
    destruct (filter_id_present _ _ Hin) as (r' & l' & E & Hr' & Hid).
    rewrite E in Hrep. exists r'. split; [exact Hrep|].
    split; [exact Hr'|]. split; [exact Hid|].
    intros Hu. apply (unique_ids_same_row (rows t)); assumption.
Qed.

(** ** Ids over any sequence of requests *)

Lemma handler_appends op req w :
  ∃ st' evs,
    handler op req w = (Returned tt, World (link w) st' (trace w ++ evs)).
Proof.
  destruct (rejection_cases (statement_of op req) w)
    as [[e He] | (Hl & rs & st' & He)].
  - rewrite (handler_rejected _ _ _ _ He). eauto.
  - rewrite (handler_resolved _ _ _ _ _ Hl He), <- Hl. eauto.
Qed.

Lemma serve_appends reqs w :
  ∃ st' evs,
    serve reqs w = (Returned tt, World (link w) st' (trace w ++ evs)).
Proof.
  revert w. induction reqs as [|[op req] rest IH]; intros w.
  - exists (storage w), []. cbn. unfold ret. rewrite app_nil_r.
    destruct w; reflexivity.
  - destruct (handler_appends op req w) as (st1 & evs1 & H1).
    cbn [serve]. unfold bind. rewrite H1.
    destruct (IH (World (link w) st1 (trace w ++ evs1)))
      as (st2 & evs2 & H2).
    rewrite H2. cbn. rewrite <- app_assoc. eauto.
Qed.

Lemma serve_cons op req rest w :
  replies (serve ((op, req) :: rest)) w
  = replies (handler op req) w
    ++ replies (serve rest) (after (handler op req) w) ∧
  after (serve ((op, req) :: rest)) w
  = after (serve rest) (after (handler op req) w).
Proof.
  destruct (handler_appends op req w) as (st1 & evs1 & H1).
  destruct (serve_appends rest (World (link w) st1 (trace w ++ evs1)))
    as (st2 & evs2 & H2).
  assert (H : serve ((op, req) :: rest) w
              = (Returned tt,
                 World (link w) st2 (trace w ++ (evs1 ++ evs2)))).
  { cbn [serve]. unfold bind. rewrite H1, H2. cbn.
    rewrite <- app_assoc. reflexivity. }
  pose proof (events_of_app _ _ _ _ _ _ H) as E.
  pose proof (events_of_app _ _ _ _ _ _ H1) as E1.
  pose proof (events_of_app _ _ _ _ _ _ H2) as E2.
  assert (Ha : after (handler op req) w
               = World (link w) st1 (trace w ++ evs1))
    by (unfold after; rewrite H1; reflexivity).
  unfold replies. rewrite Ha, E, E1, E2. unfold after. rewrite H, H2.
  split; [unfold responses; apply omap_app|].
  cbn. rewrite <- app_assoc. reflexivity.
Qed.

Lemma created_ids_step op req w t :
  storage w = Some t →
  ∃ t', storage (after (handler op req) w) = Some t' ∧
        seq t <= seq t' ∧
        (created_ids (replies (handler op req) w) = [] ∨
         (created_ids (replies (handler op req) w) = [seq t] ∧
          seq t' = seq t + 1)).
Proof.
  intros Hs.
  destruct (rejection_cases (statement_of op req) w)
    as [[e He] | (Hl & rs & st' & He)].
  - destruct (replies_rejected _ _ _ _ He) as [-> ->].
    exists t. split; [exact Hs|]. split; [lia|]. left. reflexivity.
  - destruct (replies_resolved _ _ _ _ _ Hl He) as [-> ->].
    rewrite Hs in He.
    destruct (exec_keeps_table _ _ _ _ _ He) as (t' & -> & _ & Hseq & _).
    exists t'. split; [reflexivity|]. split; [exact Hseq|].
    destruct op; cbn [statement_of fst snd] in He;
      try (left; destruct rs; reflexivity).
    apply exec_insert_inr in He as (r & a & _ & _ & Hc & _ & -> & [= ->]).
    apply checked_row_inr in Hc as [Hid _].
    right. cbn. rewrite Hid. split; reflexivity.
Qed.

Lemma created_ids_bounds reqs w t :
  storage w = Some t →
  ∃ t', storage (after (serve reqs) w) = Some t' ∧
        seq t <= seq t' ∧
        Forall (λ c, seq t <= c < seq t')
               (created_ids (replies (serve reqs) w)) ∧
        StronglySorted Z.lt (created_ids (replies (serve reqs) w)).
Proof.
  revert w t. induction reqs as [|[op req] rest IH]; intros w t Hs.
  - exists t. unfold after, replies, events_of. cbn. rewrite drop_all.
    split; [exact Hs|]. split; [lia|]. split; constructor.
  - destruct (serve_cons op req rest w) as [-> ->].
    destruct (created_ids_step op req w t Hs) as (t1 & Hs1 & Hle1 & Hc1).
    destruct (IH _ _ Hs1) as (t' & Hs' & Hle & Hall & Hsorted).
    exists t'. split; [exact Hs'|]. split; [lia|].
    unfold created_ids in *. rewrite omap_app.
    destruct Hc1 as [-> | [-> Hseq1]]; cbn [app].
    + split; [|exact Hsorted].
      eapply Forall_impl; [exact Hall|]. cbn. intros c Hc. lia.
    + split.
      * constructor; [lia|].
        eapply Forall_impl; [exact Hall|]. cbn. intros c Hc. lia.
      * constructor; [exact Hsorted|].
        eapply Forall_impl; [exact Hall|]. cbn. intros c Hc. lia.
Qed.

(** X17.  Over any sequence of requests, the ids given to created
    records go strictly up from the sequence's value: no id is given
    twice, and no id below that value, which on a well-formed table
    covers the id of every row present, is given again, whatever rows
    are deleted in between. *)
Theorem created_ids_never_reused
    (reqs : list (operation * request)) (w : world) (t : table) :
  storage w = Some t →
  let cs := created_ids (replies (serve reqs) w) in
  StronglySorted Z.lt cs ∧
  NoDup cs ∧
  Forall (λ c, seq t <= c) cs ∧
  (well_formed t → ∀ i, i ∈ ids t → i ∉ cs).
Proof.
  intros Hs cs.
  destruct (created_ids_bounds reqs w t Hs) as (t' & _ & _ & Hall & Hsorted).
  fold cs in Hall, Hsorted.
  split; [exact Hsorted|]. split; [|split].
  - clear Hall. induction Hsorted as [|c l Hl IH Hc]; constructor; [|exact IH].
    intros Hin. rewrite Forall_forall in Hc. specialize (Hc _ Hin). lia.
  - eapply Forall_impl; [exact Hall|]. cbn. intros c Hc. lia.
  - intros Hwf i Hi Hin. rewrite Forall_forall in Hall.
    specialize (Hall _ Hin). specialize (Hwf _ Hi). lia.
Qed.

(** ** What a 500 means, and what a handler reads *)

(** X18.  A handler answers 500 exactly when its statement was rejected,
    and then the error it was rejected with is written to the console,
    once; when the statement resolves nothing is written to the console
    and the answer is 200, 201 or 404. *)
Theorem internal_error_iff_rejected
    (op : operation) (req : request) (w : world) :
  ((∃ b, (500, b) ∈ replies (handler op req) w) ↔
   (∃ e, rejection (statement_of op req) w = Some e)) ∧
  (∀ e, rejection (statement_of op req) w = Some e →
        events_of (handler op req) w
        = [Query (statement_of op req).1 (statement_of op req).2;
           ConsoleError None e;
           Send 500 (BError "Database error")]) ∧
  (rejection (statement_of op req) w = None →
   ∃ status b,
     events_of (handler op req) w
     = [Query (statement_of op req).1 (statement_of op req).2;
        Send status b] ∧
     status ∈ [200; 201; 404]).
Proof.
  assert (Hres : rejection (statement_of op req) w = None →
    ∃ status b,
      events_of (handler op req) w
      = [Query (statement_of op req).1 (statement_of op req).2;
         Send status b] ∧
      status ∈ [200; 201; 404]).
  { intros Hok.
    apply not_rejected_resolved in Hok as (Hl & rs & st' & He).
    rewrite (events_of_app _ _ _ _ _ _ (handler_resolved _ _ _ _ _ Hl He)).
    eexists _, _. split; [reflexivity|].
    destruct op; cbn; try case_decide; cbn;
      repeat first [apply list_elem_of_here | apply list_elem_of_further]. }
  split; [|split; [|exact Hres]].
  - split.
    + intros [b Hin].
      destruct (rejection (statement_of op req) w) as [e|] eqn:Hrej;
        [eauto|].
      destruct (Hres eq_refl) as (status & b' & Hev & Hst).
      unfold replies in Hin. rewrite Hev in Hin. cbn in Hin.
      apply list_elem_of_singleton in Hin. injection Hin as <- _.
      repeat (apply elem_of_cons in Hst as [Hst | Hst]; [discriminate|]).
      inversion Hst.
    + intros [e He]. eexists.
      rewrite (proj1 (replies_rejected _ _ _ _ He)). apply list_elem_of_here.
  - intros e He.
    apply (events_of_app _ _ _ _ _ _ (handler_rejected _ _ _ _ He)).
Qed.

(** X19.  A handler reads nothing of the request but what goes into its
    statement: two requests that yield the same statement are handled
    alike.  So the list ignores the request altogether, the GET and
    DELETE routes ignore the body, and no route looks at a path
    parameter or body field other than its own. *)
Theorem handler_reads_only_statement_inputs
    (op : operation) (req req' : request) (w : world) :
  statement_of op req = statement_of op req' →
  handler op req w = handler op req' w.
Proof.
  intros H.
  destruct op; cbn in H; cbn [handler];
    match goal with |- ?h req w = _ => unfold h end;
    try injection H as H; repeat match goal with
    | E : _ = _ |- _ => rewrite E; clear E
    end; reflexivity.
Qed.


(** ** The further properties at concrete requests *)

Lemma demo_table_well_formed : well_formed demo_table.
Proof.
  intros i Hi. unfold ids in Hi. cbn in Hi.
  repeat (apply elem_of_cons in Hi as [-> | Hi]; [cbn; lia|]).
  inversion Hi.
Defined.

Lemma demo_table_unique_ids : unique_ids demo_table.
Proof. unfold unique_ids. by_decision. Defined.

Lemma ann_accepted :
  accepted (Ddl 100 100 10) (reqbody ann_request) "Ann" 20 "CS" "female".
Proof. repeat split; try by_computation; cbn; lia. Defined.

Lemma get_routes_keep_storage_witness :
  storage (after (handler GetByName (req_with "name" "Ann" ∅)) demo_world)
  = Some demo_table.
Proof.
  exact (get_routes_keep_storage GetByName (req_with "name" "Ann" ∅)
           demo_world eq_refl).
Defined.


Lemma handlers_keep_table_invariants_witness :
  ∃ t', storage (after (handler Create ann_request) demo_world) = Some t' ∧
        widths t' = Ddl 100 100 10 ∧ 5 <= seq t' ∧
        well_formed t' ∧ unique_ids t'.
Proof.
  destruct (handlers_keep_table_invariants Create ann_request demo_world
              demo_table eq_refl) as (t' & Hs & Hw & Hseq & Hwf & Hu).
  exists t'. split; [exact Hs|]. split; [exact Hw|]. split; [exact Hseq|].
  split; [exact (Hwf demo_table_well_formed)|exact (Hu demo_table_unique_ids)].
Defined.

Lemma handlers_never_create_table_witness :
  replies (handler Create ann_request) (fresh None None)
  = [(500, BError "Database error")] ∧
  storage (after (handler Create ann_request) (fresh None None)) = None.
Proof.
  exact (handlers_never_create_table Create ann_request (fresh None None)
           eq_refl).
Defined.


Lemma consecutive_creates_consecutive_ids_witness :
  ∃ r1 r2,
    replies (post_students ann_request) started = [(201, BRecord r1)] ∧
    replies (post_students (Request ∅ bea_body))
            (after (post_students ann_request) started)
    = [(201, BRecord r2)] ∧
    id r2 = id r1 + 1.
Proof.
  apply consecutive_creates_consecutive_ids; by_computation.
Defined.

Lemma delete_then_list_witness :
  replies (get_students (Request ∅ ∅))
          (after (delete_student_by_id (req_with "id" "2" ∅)) demo_world)
  = [(200, BList [Student 1 "Ann" 20 "CS" "female";
                  Student 4 "Ann" 31 "Math" "female"])].
Proof.
  refine (proj2 (proj2 (delete_then_list (req_with "id" "2" ∅) demo_world
            demo_table "2" 2 _ _ _ _ demo_table_unique_ids)) (Request ∅ ∅)).
  - split; reflexivity.
  - by_computation.
  - by_computation.
  - by_decision.
Defined.

Lemma delete_twice_is_404_witness :
  replies (delete_student_by_id (req_with "id" "2" ∅))
          (after (delete_student_by_id (req_with "id" "2" ∅)) demo_world)
  = [(404, BError "Student not found")].
Proof.
  refine (proj1 (delete_twice_is_404 (req_with "id" "2" ∅) demo_world
            demo_table "2" 2 _ _ _)).
  - split; reflexivity.
  - by_computation.
  - by_computation.
Defined.

Lemma update_then_get_by_id_witness :
  replies (get_student_by_id (req_with "id" "2" ∅))
          (after (put_student_by_id (req_with "id" "2" bea_body)) demo_world)
  = [(200, BRecord (Student 2 "Bea" 23 "Physics" "female"))].
Proof.
  refine (proj2 (update_then_get_by_id (req_with "id" "2" bea_body)
            (req_with "id" "2" ∅) demo_world demo_table "2" "2" 2
            "Bea" 23 "Physics" "female" _ _ _ bea_accepted _ _ _)).
  - split; reflexivity.
  - by_computation.
  - by_computation.
  - by_decision.
  - by_computation.
  - by_computation.
Defined.

Lemma update_twice_same_witness :
  let put := put_student_by_id (req_with "id" "2" bea_body) in
  replies put (after put demo_world) = replies put demo_world ∧
  storage (after put (after put demo_world)) = storage (after put demo_world).
Proof.
  refine (update_twice_same (req_with "id" "2" bea_body) demo_world
            demo_table "2" 2 "Bea" 23 "Physics" "female" _ _ _ bea_accepted).
  - split; reflexivity.
  - by_computation.
  - by_computation.
Defined.



Lemma initialize_then_first_create_witness :
  replies (post_students ann_request) (after Index.initialize (fresh None None))
  = [(201, BRecord (Student 1 "Ann" 20 "CS" "female"))].
Proof.
  exact (initialize_then_first_create ann_request (fresh None None)
           "Ann" 20 "CS" "female" eq_refl eq_refl ann_accepted).
Defined.

Lemma stored_row_is_found_witness :
  (∃ l, replies (get_students_by_gender (req_with "gender" "male" ∅))
                demo_world = [(200, BList l)] ∧ bob ∈ l) ∧
  replies (get_student_by_id (req_with "id" "2" ∅)) demo_world
  = [(200, BRecord bob)].
Proof.
  assert (Hsv : serving demo_world demo_table) by (split; reflexivity).
  assert (Hin : bob ∈ rows demo_table) by (right; left).
  destruct (stored_row_is_found demo_world demo_table bob Hsv Hin)
    as (Hg & _ & _ & Hid).
  split; [exact (Hg (req_with "gender" "male" ∅) eq_refl)|].
  destruct (Hid ltac:(cbn; unfold int4_min, int4_max; lia)
              (req_with "id" "2" ∅) eq_refl)
    as (r' & Hrep & _ & _ & Hsame).
  rewrite <- (Hsame demo_table_unique_ids). exact Hrep.
Defined.

Lemma created_ids_never_reused_witness :
  NoDup (created_ids
           (replies (serve [(Create, ann_request);
                            (DeleteById, req_with "id" "1" ∅);
                            (Create, ann_request)]) started)).
Proof.
  exact (proj1 (proj2 (created_ids_never_reused _ started _ eq_refl))).
Defined.

Lemma internal_error_iff_rejected_witness :
  (∃ b, (500, b) ∈ replies (handler GetById (req_with "id" "abc" ∅))
                           demo_world) ∧
  events_of (handler GetById (req_with "id" "abc" ∅)) demo_world
  = [Query (SELECT_WHERE Cid) [JStr "abc"];
     ConsoleError None (InvalidTextRepresentation "abc");
     Send 500 (BError "Database error")].
Proof.
  destruct (internal_error_iff_rejected GetById (req_with "id" "abc" ∅)
              demo_world) as ([_ H500] & Hlog & _).
  assert (Hrej : rejection (statement_of GetById (req_with "id" "abc" ∅))
                   demo_world = Some (InvalidTextRepresentation "abc"))
    by by_computation.
  split; [apply H500; eauto|]. exact (Hlog _ Hrej).
Defined.

Lemma handler_reads_only_statement_inputs_witness :
  handler DeleteById (Request {[ "id" := "2"; "name" := "x" ]} bea_body)
          demo_world
  = handler DeleteById (req_with "id" "2" ∅) demo_world.
Proof.
  apply handler_reads_only_statement_inputs. by_computation.
Defined.

